(** * NDBC.DataBuoy: acquisition and normalisation of buoy observations

    A shallow embedding of [NDBC/NDBC.py] (class [DataBuoy]) and the
    properties of its acquisition pipeline.

    Modelling conventions.
    - The pandas frame returned by [pd.read_csv(url, '\s+')] is the input of
      the parser: a header and rows of typed cells (a string of an
      object-dtype column, an int64, a float64 or NaN).
    - Python exceptions are values of [exn]; a computation that touches
      [self] or the network runs in the monad [M], which keeps the state
      reached when an exception is raised, as Python does.
    - The network and the clock are the [World] the call runs in; it does
      not change during a call.
    - Payloads are ASCII text. *)

From Stdlib Require Import ZArith QArith String Ascii List Lia DecimalString.
From Stdlib Require DecimalPos DecimalZ.
From stdpp Require Import base option list strings gmap.

Local Open Scope string_scope.
Local Open Scope list_scope.
Local Open Scope Z_scope.

(** ** Exceptions and the two monads *)

Inductive exn :=
| AttributeError    (* an attribute that was never assigned is read *)
| KeyError          (* a row label, a column or a dict key is missing *)
| IndexError        (* [0] of an empty list or of an empty string *)
| NotSubscriptable  (* [0] of a number (IndexError for a numpy scalar,
                       TypeError for a Python number) *)
| TypeError         (* str + int, or str.join over a number *)
| ValueError        (* int(), math.log, strptime, datetime *)
| OverflowError     (* an argument of datetime that does not fit a C int *)
| UnboundLocalError (* a local variable is read before it is bound *)
| TransportError.   (* raised by requests / urllib / the csv reader *)

Inductive result (A : Type) :=
| Ok (a : A)
| Raise (e : exn).
Arguments Ok {A} a.
Arguments Raise {A} e.

#[global] Instance result_ret : MRet result := fun A a => Ok a.
#[global] Instance result_bind : MBind result :=
  fun A B f m => match m with Ok a => f a | Raise e => Raise e end.

Definition of_option {A} (o : option A) (e : exn) : result A :=
  match o with Some a => Ok a | None => Raise e end.

(** ** Characters and strings *)

Definition nl : string := String (ascii_of_nat 10) EmptyString.

Definition is_digit (a : ascii) : bool :=
  let n := N_of_ascii a in ((48 <=? n) && (n <=? 57))%N.

Definition digit_val (a : ascii) : Z := Z.of_N (N_of_ascii a) - 48.

(* str.isspace, and \s of a str pattern, on ASCII: the blank, \t \n \v \f \r
   and the four separators 0x1c-0x1f *)
Definition is_space (a : ascii) : bool :=
  let n := N_of_ascii a in
  ((n =? 32) || ((9 <=? n) && (n <=? 13)) || ((28 <=? n) && (n <=? 31)))%N.

(* the blanks int() skips around an ASCII literal: the blank, \t \n \v \f \r
   (0x1c-0x1f are not among them) *)
Definition is_blank (a : ascii) : bool :=
  let n := N_of_ascii a in ((n =? 32) || ((9 <=? n) && (n <=? 13)))%N.

(* str(n) and '{}'.format(n) of a Python int *)
Definition str_of_Z (z : Z) : string := NilZero.string_of_int (Z.to_int z).

(* ' '.join(l) *)
Fixpoint join_sp (l : list string) : string :=
  match l with
  | [] => ""
  | [s] => s
  | s :: l' => s +:+ " " +:+ join_sp l'
  end.

(** ** int(s) for a Python str: optional blanks, optional sign, decimal
    digits in groups separated by single underscores. *)

Fixpoint int_digits (after_digit : bool) (acc : Z) (l : list ascii) : option Z :=
  match l with
  | [] => if after_digit then Some acc else None
  | a :: l' =>
      if is_digit a then int_digits true (10 * acc + digit_val a) l'
      else if Ascii.eqb a "_" && after_digit then int_digits false acc l'
      else None
  end.

Fixpoint lstrip (l : list ascii) : list ascii :=
  match l with
  | a :: l' => if is_blank a then lstrip l' else l
  | [] => []
  end.

Definition strip (l : list ascii) : list ascii := rev (lstrip (rev (lstrip l))).

Definition int_of_str (s : string) : option Z :=
  match strip (list_ascii_of_string s) with
  | "-"%char :: l => Z.opp <$> int_digits false 0 l
  | "+"%char :: l => int_digits false 0 l
  | l => int_digits false 0 l
  end.

(** ** Cells and frames *)

Inductive cell :=
| CStr (s : string)   (* element of an object column *)
| CInt (z : Z)        (* int64 *)
| CFloat (q : Q)      (* finite float64, by the rational it denotes *)
| CNaN.               (* missing value *)

(* a frame: the header and the rows, each under its integer label *)
Record DataFrame := {
  columns : list string;
  rows : list (Z * list cell)
}.

(* what read_csv hands over: labels 0, 1, 2, ... (a RangeIndex).  This is
   the frame of a payload whose rows have no more fields than its header;
   a payload whose rows have one field more is read with the first field as
   the row label and is not such a frame. *)
Definition mk_frame (header : list string) (body : list (list cell)) : DataFrame :=
  {| columns := header; rows := imap (fun i r => (Z.of_nat i, r)) body |}.

(* the value of a row under the column at position i; a short row is
   padded with NaN, as the csv reader does *)
Definition cell_at (r : list cell) (i : nat) : cell := default CNaN (r !! i).

(* position of a column name in a header *)
Fixpoint col_pos (name : string) (cols : list string) : option nat :=
  match cols with
  | [] => None
  | c :: cols' => if String.eqb c name then Some 0%nat else S <$> col_pos name cols'
  end.

(* df.loc[l] : the row labelled l *)
Definition df_loc (df : DataFrame) (l : Z) : result (list cell) :=
  of_option (snd <$> List.find (fun r => fst r =? l) (rows df)) KeyError.

(* series[0] on a row: position fallback, the index being the header *)
Definition row_first (df : DataFrame) (r : list cell) : result cell :=
  match columns df with
  | [] => Raise IndexError
  | _ => Ok (cell_at r 0)
  end.

(* value[0] *)
Definition first_char (c : cell) : result ascii :=
  match c with
  | CStr EmptyString => Raise IndexError
  | CStr (String a _) => Ok a
  | _ => Raise NotSubscriptable
  end.

(* df.drop([l]) *)
Definition df_drop (df : DataFrame) (l : Z) : DataFrame :=
  {| columns := columns df;
     rows := List.filter (fun r => negb (fst r =? l)) (rows df) |}.

(* df[name] : the column as a labelled series *)
Definition df_col (df : DataFrame) (name : string) : result (list (Z * cell)) :=
  i ← of_option (col_pos name (columns df)) KeyError;
  Ok (List.map (fun r => (fst r, cell_at (snd r) i)) (rows df)).

(* series[l] on an integer-labelled series *)
Definition series_at (s : list (Z * cell)) (l : Z) : result cell :=
  of_option (snd <$> List.find (fun r => fst r =? l) s) KeyError.

(* int(x) *)
Definition py_int (c : cell) : result Z :=
  match c with
  | CStr s => of_option (int_of_str s) ValueError
  | CInt z => Ok z
  | CFloat q => Ok (Z.quot (Qnum q) (Zpos (Qden q)))
  | CNaN => Raise ValueError
  end.

(** ** The two-digit test of line 96

    [int(math.floor(math.log(n, 10) + 1)) == 2].  [math.log] raises
    ValueError on n <= 0.  The logarithm is computed here on integers; the
    floating-point quotient log(n)/log(10) is exact at 10 and at 100, the only
    boundaries the comparison with 2 depends on. *)

Fixpoint log10_fuel (fuel : nat) (n : Z) : Z :=
  match fuel with
  | O => 0
  | S f => if n <? 10 then 0 else 1 + log10_fuel f (n / 10)
  end.

Definition floor_log10 (n : Z) : Z := log10_fuel (S (Z.to_nat (Z.log2 n))) n.

Definition math_log10 (n : Z) : result Z :=
  if n <=? 0 then Raise ValueError else Ok (floor_log10 n).

Definition two_digit_year (n : Z) : result bool :=
  l ← math_log10 n; Ok (l + 1 =? 2).

(** ** series + 1900 and column assignment *)

Definition wrap64 (z : Z) : Z := (z + 2 ^ 63) mod 2 ^ 64 - 2 ^ 63.

Definition add_1900 (c : cell) : result cell :=
  match c with
  | CStr _ => Raise TypeError           (* str + int *)
  | CInt z => Ok (CInt (wrap64 (z + 1900)))
  | CFloat q => Ok (CFloat (Qplus q (1900 # 1)))
  | CNaN => Ok CNaN
  end.

Definition set_cell (r : list cell) (i : nat) (c : cell) : list cell :=
  <[i:=c]> (r ++ replicate (S i - length r) CNaN).

(* df[name] = df[name] + 1900 *)
Definition df_add_1900 (df : DataFrame) (name : string) : result DataFrame :=
  i ← of_option (col_pos name (columns df)) KeyError;
  new ← mapM (fun r => add_1900 (cell_at (snd r) i)) (rows df);
  Ok {| columns := columns df;
        rows := zip_with (fun r c => (fst r, set_cell (snd r) i c)) (rows df) new |}.

(** ** Timestamps and datetime.strptime *)

Record datetime := {
  year : Z; month : Z; day : Z; hour : Z; minute : Z
}.

#[global] Instance datetime_eq_dec : EqDecision datetime.
Proof. solve_decision. Defined.

#[global] Instance datetime_countable : Countable datetime :=
  inj_countable'
    (fun d => (year d, month d, day d, hour d, minute d))
    (fun t => match t with
              | (y, m, d, H, M) => {| year := y; month := m; day := d; hour := H; minute := M |}
              end)
    (fun d => match d with Build_datetime _ _ _ _ _ => eq_refl end).

Definition is_leap (y : Z) : bool :=
  (y mod 4 =? 0) && (negb (y mod 100 =? 0) || (y mod 400 =? 0)).

Definition days_in_month (y m : Z) : Z :=
  if m =? 2 then (if is_leap y then 29 else 28)
  else if (m =? 4) || (m =? 6) || (m =? 9) || (m =? 11) then 30
  else 31.

(* an argument the datetime constructor can read as a C int *)
Definition fits_c_int (z : Z) : bool := (- 2 ^ 31 <=? z) && (z <? 2 ^ 31).

(* the datetime constructor: OverflowError for an argument outside the C
   int range, which is read first; ValueError outside the calendar *)
Definition mk_datetime (y m d H M : Z) : result datetime :=
  if negb (fits_c_int y && fits_c_int m && fits_c_int d
           && fits_c_int H && fits_c_int M)
  then Raise OverflowError
  else if (1 <=? y) && (y <=? 9999) && (1 <=? m) && (m <=? 12)
     && (1 <=? d) && (d <=? days_in_month y m)
     && (0 <=? H) && (H <=? 23) && (0 <=? M) && (M <=? 59)
  then Ok {| year := y; month := m; day := d; hour := H; minute := M |}
  else Raise ValueError.

(* the pieces of a format string *)
Inductive fmt_item := FY | Fm | Fd | FH | FM | FSpace | FLit (a : ascii).

Definition directive (d : ascii) : result fmt_item :=
  if Ascii.eqb d "Y" then Ok FY
  else if Ascii.eqb d "m" then Ok Fm
  else if Ascii.eqb d "d" then Ok Fd
  else if Ascii.eqb d "H" then Ok FH
  else if Ascii.eqb d "M" then Ok FM
  else if Ascii.eqb d "%" then Ok (FLit "%")
  else Raise ValueError.   (* a directive the table below does not use *)

Fixpoint parse_format (l : list ascii) : result (list fmt_item) :=
  match l with
  | [] => Ok []
  | a :: l' =>
      if Ascii.eqb a "%" then
        match l' with
        | [] => Raise ValueError
        | d :: l'' => it ← directive d; rest ← parse_format l''; Ok (it :: rest)
        end
      else
        rest ← parse_format l';
        Ok ((if is_space a then FSpace else FLit a) :: rest)
  end.

(* a run of blanks in the format is one [\s+] *)
Fixpoint collapse (its : list fmt_item) : list fmt_item :=
  match its with
  | FSpace :: ((FSpace :: _) as its') => collapse its'
  | it :: its' => it :: collapse its'
  | [] => []
  end.

Record fields := { f_Y : Z; f_m : Z; f_d : Z; f_H : Z; f_M : Z }.

Definition fields0 : fields := {| f_Y := 1900; f_m := 1; f_d := 1; f_H := 0; f_M := 0 |}.

Definition digits2 (lo hi : Z) (s : list ascii) : list (Z * list ascii) :=
  match s with
  | a :: b :: s' =>
      let v := 10 * digit_val a + digit_val b in
      if is_digit a && is_digit b && (lo <=? v) && (v <=? hi) then [(v, s')] else []
  | _ => []
  end.

Definition digits1 (lo : Z) (s : list ascii) : list (Z * list ascii) :=
  match s with
  | a :: s' => if is_digit a && (lo <=? digit_val a) then [(digit_val a, s')] else []
  | _ => []
  end.

Definition digits4 (s : list ascii) : list (Z * list ascii) :=
  match s with
  | a :: b :: c :: d :: s' =>
      if is_digit a && is_digit b && is_digit c && is_digit d
      then [(1000 * digit_val a + 100 * digit_val b + 10 * digit_val c + digit_val d, s')]
      else []
  | _ => []
  end.

(* the suffixes left after one or more blanks, the longest run first *)
Fixpoint after_blanks (s : list ascii) : list (list ascii) :=
  match s with
  | a :: s' => if is_space a then after_blanks s' ++ [s'] else []
  | [] => []
  end.

(* The ways one item can match a prefix of [s], in the order of the
   alternatives of the regular expression strptime builds:
     %Y  \d\d\d\d                         %m  1[0-2]|0[1-9]|[1-9]
     %d  3[01]|[12]\d|0[1-9]|[1-9]| [1-9]  %H  2[0-3]|[0-1]\d|\d
     %M  [0-5]\d|\d *)
Definition candidates (it : fmt_item) (s : list ascii) (f : fields)
  : list (fields * list ascii) :=
  match it with
  | FY => (fun '(v, s') => ({| f_Y := v; f_m := f_m f; f_d := f_d f; f_H := f_H f; f_M := f_M f |}, s'))
            <$> digits4 s
  | Fm => (fun '(v, s') => ({| f_Y := f_Y f; f_m := v; f_d := f_d f; f_H := f_H f; f_M := f_M f |}, s'))
            <$> (digits2 1 12 s ++ digits1 1 s)
  | Fd => (fun '(v, s') => ({| f_Y := f_Y f; f_m := f_m f; f_d := v; f_H := f_H f; f_M := f_M f |}, s'))
            <$> (digits2 1 31 s ++ digits1 1 s ++
                 match s with a :: s' => if Ascii.eqb a " " then digits1 1 s' else [] | [] => [] end)
  | FH => (fun '(v, s') => ({| f_Y := f_Y f; f_m := f_m f; f_d := f_d f; f_H := v; f_M := f_M f |}, s'))
            <$> (digits2 0 23 s ++ digits1 0 s)
  | FM => (fun '(v, s') => ({| f_Y := f_Y f; f_m := f_m f; f_d := f_d f; f_H := f_H f; f_M := v |}, s'))
            <$> (digits2 0 59 s ++ digits1 0 s)
  | FSpace => (fun s' => (f, s')) <$> after_blanks s
  | FLit a => match s with
              | b :: s' => if Ascii.eqb a b then [(f, s')] else []
              | [] => []
              end
  end.

Fixpoint first_success {A B} (k : A -> option B) (l : list A) : option B :=
  match l with
  | [] => None
  | a :: l' => match k a with Some b => Some b | None => first_success k l' end
  end.

(* re.match of the compiled format: the first match in backtracking order *)
Fixpoint match_items (its : list fmt_item) (s : list ascii) (f : fields)
  : option (fields * list ascii) :=
  match its with
  | [] => Some (f, s)
  | it :: its' => first_success (fun c => match_items its' (snd c) (fst c)) (candidates it s f)
  end.

(* datetime.strptime(data, fmt) *)
Definition strptime (data fmt : string) : result datetime :=
  its ← parse_format (list_ascii_of_string fmt);
  match match_items (collapse its) (list_ascii_of_string data) fields0 with
  | None => Raise ValueError                 (* does not match format *)
  | Some (f, []) => mk_datetime (f_Y f) (f_m f) (f_d f) (f_H f) (f_M f)
  | Some (_, _ :: _) => Raise ValueError     (* unconverted data remains *)
  end.

(** ** load_stdmet, lines 79-106: from the frame to the indexed batch *)

Definition year_types : list string := ["YY"; "YYYY"; "#YY"].

(* A table: one entry per row, the timestamp it is keyed by and its values
   under their column names.  [DataFrame.append] puts the rows of its
   argument after those of the receiver and keeps every index value; a
   column one side lacks reads as NaN, which the names make implicit.
   The cells are recorded as they were loaded.  Append may re-type a
   numeric column (an int64 column that receives NaN becomes float64); the
   table does not follow that, so what is stated of rows already in the
   table is stated of their keys and of their number. *)
Definition Table := list (datetime * list (string * cell)).

(* the timestamps a table is keyed by, as a list and as a set *)
Definition keys (t : Table) : list datetime := t.*1.

Definition key_set (t : Table) : gset datetime := list_to_set (keys t).

(* lines 82-84: the units row *)
Definition drop_units (df : DataFrame) : result DataFrame :=
  r0 ← df_loc df 0;
  c ← row_first df r0;
  a ← first_char c;
  Ok (if Ascii.eqb a "#" then df_drop df 0 else df).

(* lines 86-90 *)
Definition dt_columns (df : DataFrame) : list string * gmap string string :=
  let dt_index_cols := ["#YY"; "MM"; "DD"; "hh"] in
  let dt_format_vals : gmap string string :=
    <["#YY" := "%Y"]> (<["MM" := "%m"]> (<["DD" := "%d"]> (<["hh" := "%H"]> ∅))) in
  if bool_decide ("mm" ∈ columns df)
  then (dt_index_cols ++ ["mm"], <["mm" := "%M"]> dt_format_vals)
  else (dt_index_cols, dt_format_vals).

(* the columns left in a frame once the columns [keys] have become its
   index, each with its position in the header *)
Definition value_columns (header keys : list string) : list (nat * string) :=
  List.filter (fun ic => negb (bool_decide (snd ic ∈ keys)))
              (imap (fun i c => (i, c)) header).

(* the values of a row under those columns *)
Definition row_values (header keys : list string) (r : list cell) : list (string * cell) :=
  List.map (fun ic => (snd ic, cell_at r (fst ic))) (value_columns header keys).

(* df.set_index(keys): the key columns leave the frame and become the
   index tuples; a key that is no column is a KeyError *)
Definition set_index (df : DataFrame) (keys : list string)
  : result (list (list cell * list (string * cell))) :=
  ps ← mapM (fun k => of_option (col_pos k (columns df)) KeyError) keys;
  Ok (List.map (fun r => (List.map (cell_at (snd r)) ps,
                          row_values (columns df) keys (snd r)))
               (rows df)).

(* ' '.join(x) over an index tuple *)
Definition tuple_join (x : list cell) : result string :=
  strs ← mapM (fun c => match c with CStr s => Ok s | _ => Raise TypeError end) x;
  Ok (join_sp strs).

(* lines 82-106, on the frame line 80 has read; the result is the frame
   line 108 appends *)
Definition index_batch (data_df : DataFrame) : result Table :=
  data_df ← drop_units data_df;
  let '(dt_index_cols, dt_format_vals) := dt_columns data_df in
  (* line 93: membership is tested in dt_index_cols *)
  yt ← of_option (head (List.filter (fun x => bool_decide (x ∈ dt_index_cols)) year_types))
                 IndexError;
  let dt_index_cols := <[0%nat := yt]> dt_index_cols in
  (* line 96 *)
  col ← df_col data_df yt;
  v ← series_at col 1;
  n ← py_int v;
  two ← two_digit_year n;
  data_df ← (if two : bool then df_add_1900 data_df yt else Ok data_df);
  (* line 99 *)
  fmts ← mapM (fun x => of_option (dt_format_vals !! x) KeyError) dt_index_cols;
  let dt_format_str := join_sp fmts in
  (* line 101 *)
  indexed ← set_index data_df dt_index_cols;
  (* lines 103-104 *)
  dt_vals ← mapM (fun r => s ← tuple_join (fst r); strptime s dt_format_str) indexed;
  (* line 106 *)
  Ok (zip dt_vals (snd <$> indexed)).

(** ** The object, the world and the monad of the methods *)

Record DataBuoy := {
  _station_id : option string;   (* self._station_id, when assigned *)
  station_id : option string;    (* self.station_id, when assigned *)
  stdmet : Table                 (* self.data['stdmet'], the one entry of
                                    the dict self.data *)
}.

Inductive net_event :=
| Head (url : string)    (* requests.head(url) *)
| Get (url : string).    (* the download inside pd.read_csv(url, ...) *)

Record State := {
  self : DataBuoy;
  net : list net_event         (* the requests issued so far, oldest first *)
}.

Record World := {
  today_year : Z;                        (* dt.today().year *)
  today_month : Z;                       (* dt.today().month *)
  head_status : string -> result Z;      (* status code of a HEAD request *)
  (* what pd.read_csv(url, '\s+') parses: the header and the data rows,
     none of them with more fields than the header (see [mk_frame]) *)
  read_csv : string -> result (list string * list (list cell))
}.

Definition M (A : Type) : Type := State -> result A * State.

#[global] Instance M_ret : MRet M := fun A a s => (Ok a, s).
#[global] Instance M_bind : MBind M :=
  fun A B f m s => match m s with
                   | (Ok a, s') => f a s'
                   | (Raise e, s') => (Raise e, s')
                   end.

Definition lift {A} (r : result A) : M A := fun s => (r, s).
Definition get_self : M DataBuoy := fun s => (Ok (self s), s).
Definition emit (e : net_event) : M unit :=
  fun s => (Ok tt, {| self := self s; net := net s ++ [e] |}).
Definition with_stdmet (o : DataBuoy) (t : Table) : DataBuoy :=
  {| _station_id := _station_id o; station_id := station_id o; stdmet := t |}.

Definition set_stdmet (t : Table) : M unit :=
  fun s => (Ok tt, {| self := with_stdmet (self s) t; net := net s |}).

(* self.station_id *)
Definition self_station_id : M string :=
  o ← get_self; lift (of_option (station_id o) AttributeError).

(* self._station_id *)
Definition self__station_id : M string :=
  o ← get_self; lift (of_option (_station_id o) AttributeError).

(** ** The methods *)

Definition STDMET_MONTHURL (month station : string) : string :=
  "https://www.ndbc.noaa.gov/data/stdmet/" +:+ month +:+ "/" +:+ station +:+ ".txt".

Definition STDMET_YEARURL (station year : string) : string :=
  "https://www.ndbc.noaa.gov/view_text_file.php?filename=" +:+ station +:+ "h"
  +:+ year +:+ ".txt.gz&dir=data/historical/stdmet/".

(* DataBuoy(station_id): the default argument False and the empty string
   are falsy *)
Definition __init__ (station_id_arg : option string) : DataBuoy :=
  {| _station_id := match station_id_arg with
                    | Some EmptyString | None => None
                    | Some s => Some s
                    end;
     station_id := None;
     stdmet := [] |}.

Definition __str__ : M string :=
  sid ← self__station_id; mret ("NDBC.DataBuoy Object for Station " +:+ sid).

Definition __checkurl__ (w : World) (url : string) : M bool :=
  emit (Head url);;
  status_code ← lift (head_status w url);
  mret (status_code =? 200).

(* lines 79-108; on line 108 the table becomes the table with the rows of
   the new frame after its own (see [Table]) *)
Definition load_stdmet (w : World) (url : string) : M unit :=
  emit (Get url);;
  parsed ← lift (read_csv w url);
  let data_df := mk_frame (fst parsed) (snd parsed) in
  data_df ← lift (index_batch data_df);
  o ← get_self;
  set_stdmet (stdmet o ++ data_df).

(* dt(y, m, 1).strftime('%b') *)
Definition month_abbr (y m : Z) : result string :=
  d ← mk_datetime y m 1 0 0;
  of_option (["Jan"; "Feb"; "Mar"; "Apr"; "May"; "Jun";
              "Jul"; "Aug"; "Sep"; "Oct"; "Nov"; "Dec"] !! Z.to_nat (month d - 1))
            ValueError.

(* lines 134-142; [None] when the fuel runs out before the loop ends *)
Fixpoint default_walk (fuel : nat) (w : World) (month_num : Z) (valid : bool)
    (my_url : option string) (times_unavailable : string)
  : M (option (option string * string)) :=
  if (month_num >=? 0) && negb valid then
    match fuel with
    | O => mret None
    | S fuel' =>
        month_abbrv ← lift (month_abbr (today_year w) month_num);
        station ← self_station_id;
        let my_url := STDMET_MONTHURL month_abbrv station in
        valid ← __checkurl__ w my_url;
        let times_unavailable :=
          if valid : bool then times_unavailable
          else times_unavailable +:+ month_abbrv +:+ " not available." +:+ nl +:+ " " in
        default_walk fuel' w (month_num - 1) valid (Some my_url) times_unavailable
    end
  else mret (Some (my_url, times_unavailable)).

(* lines 147-152 *)
Fixpoint years_loop (w : World) (years : list Z) (times_unavailable : string) : M string :=
  match years with
  | [] => mret times_unavailable
  | year :: years' =>
      station ← self_station_id;
      let my_url := STDMET_YEARURL station (str_of_Z year) in
      ok ← __checkurl__ w my_url;
      times_unavailable ←
        (if ok : bool then load_stdmet w my_url;; mret times_unavailable
         else mret (times_unavailable +:+ "Year " +:+ str_of_Z year +:+ " not available." +:+ nl));
      years_loop w years' times_unavailable
  end.

(* lines 154-161 *)
Fixpoint months_loop (w : World) (months : list Z) (times_unavailable : string) : M string :=
  match months with
  | [] => mret times_unavailable
  | month :: months' =>
      month_abbrv ← lift (month_abbr (today_year w) month);
      station ← self_station_id;
      let my_url := STDMET_MONTHURL month_abbrv station in
      ok ← __checkurl__ w my_url;
      times_unavailable ←
        (if ok : bool then load_stdmet w my_url;; mret times_unavailable
         else mret (times_unavailable +:+ month_abbrv +:+ " not available." +:+ nl));
      months_loop w months' times_unavailable
  end.

(* the value of the call: [None] when the fuel of the while loop ran out,
   [Some None] for Python's None, [Some (Some s)] for the advisory string *)
Definition get_stdmet (fuel : nat) (w : World) (years months : list Z)
  : M (option (option string)) :=
  let times_unavailable := "" in
  r ← match years, months with
      | [], [] =>
          walked ← default_walk fuel w (today_month w) false None times_unavailable;
          match walked with
          | None => mret None
          | Some (my_url, times_unavailable) =>
              my_url ← lift (of_option my_url UnboundLocalError);
              load_stdmet w my_url;;
              mret (Some times_unavailable)
          end
      | _, _ =>
          times_unavailable ← years_loop w years times_unavailable;
          times_unavailable ← months_loop w months times_unavailable;
          mret (Some times_unavailable)
      end;
  mret ((fun times_unavailable : string =>
           if (0 <? Z.of_nat (String.length times_unavailable)) then Some times_unavailable
           else None) <$> r).

(** An unfolding used in the proofs, not a function of the source: what
    [index_batch] does after lines 82-84, with the result of line 93 written
    out (lemma [index_batch_unfold] relates the two). *)
Definition index_rest (data_df : DataFrame) : result Table :=
  let '(dt_index_cols, dt_format_vals) := dt_columns data_df in
  let dt_index_cols := <[0%nat := "#YY"]> dt_index_cols in
  col ← df_col data_df "#YY";
  v ← series_at col 1;
  n ← py_int v;
  two ← two_digit_year n;
  data_df ← (if two : bool then df_add_1900 data_df "#YY" else Ok data_df);
  fmts ← mapM (fun x => of_option (dt_format_vals !! x) KeyError) dt_index_cols;
  indexed ← set_index data_df dt_index_cols;
  dt_vals ← mapM (fun r => s ← tuple_join (fst r); strptime s (join_sp fmts)) indexed;
  Ok (zip dt_vals (snd <$> indexed)).

(** ** Vocabulary of the statements *)

(* what a probe of [url] answers when the transport does not fail *)
Definition available (w : World) (url : string) : bool :=
  match head_status w url with Ok status_code => status_code =? 200 | Raise _ => false end.

(* the entry a requested year adds to the advisory: none when available *)
Definition year_note (w : World) (station : string) (y : Z) : string :=
  if available w (STDMET_YEARURL station (str_of_Z y)) then ""
  else "Year " +:+ str_of_Z y +:+ " not available." +:+ nl.

(* the entry a requested month of the current year adds *)
Definition month_note (w : World) (station : string) (m : Z) : string :=
  match month_abbr (today_year w) m with
  | Ok month_abbrv =>
      if available w (STDMET_MONTHURL month_abbrv station) then ""
      else month_abbrv +:+ " not available." +:+ nl
  | Raise _ => ""
  end.

Fixpoint concat_notes (l : list string) : string :=
  match l with
  | [] => ""
  | s :: l' => s +:+ concat_notes l'
  end.

Definition advisory (w : World) (station : string) (years months : list Z) : string :=
  concat_notes ((year_note w station <$> years) ++ (month_note w station <$> months)).

(* a property of the state before and after a computation, whatever it
   returns or raises *)
Definition keeps (R : State -> State -> Prop) {A} (m : M A) : Prop :=
  forall s r s', m s = (r, s') -> R s s'.

(* the two station attributes are those of the earlier state *)
Definition same_station (s s' : State) : Prop :=
  _station_id (self s') = _station_id (self s) /\ station_id (self s') = station_id (self s).

(* the table of the later state extends that of the earlier one *)
Definition table_grows (s s' : State) : Prop := stdmet (self s) `prefix_of` stdmet (self s').

(* only HEAD requests were added to the log, at most n of them *)
Definition probes_only (n : nat) (s s' : State) : Prop :=
  exists urls, net s' = net s ++ (Head <$> urls) /\ (length urls <= n)%nat.

(* lines 163-164: what the call returns for the advisory it has built *)
Definition returned (times_unavailable : string) : option string :=
  if 0 <? Z.of_nat (String.length times_unavailable) then Some times_unavailable else None.


(* a date and a time of day that exist *)
Definition valid_datetime (d : datetime) : Prop :=
  1 <= year d <= 9999 /\ 1 <= month d <= 12
  /\ 1 <= day d <= days_in_month (year d) (month d)
  /\ 0 <= hour d <= 23 /\ 0 <= minute d <= 59.

(* the rows a download of [url] contributes: the indexed rows of its
   payload, none when the download or the indexing raises *)
Definition fetched (w : World) (url : string) : Table :=
  match read_csv w url ≫= (fun p => index_batch (mk_frame p.1 p.2)) with
  | Ok batch => batch
  | Raise _ => []
  end.

(* the rows a requested year, and a requested month, contribute *)
Definition year_rows (w : World) (station : string) (y : Z) : Table :=
  let url := STDMET_YEARURL station (str_of_Z y) in
  if available w url then fetched w url else [].

Definition month_rows (w : World) (station : string) (m : Z) : Table :=
  match month_abbr (today_year w) m with
  | Ok month_abbrv =>
      let url := STDMET_MONTHURL month_abbrv station in
      if available w url then fetched w url else []
  | Raise _ => []
  end.

(* A log in which every download directly follows a probe of the same
   address that answered 200. *)
Inductive probe_log (w : World) : list net_event -> Prop :=
| probe_log_nil : probe_log w []
| probe_log_head url l : probe_log w l -> probe_log w (Head url :: l)
| probe_log_get url l :
    available w url = true -> probe_log w l -> probe_log w (Head url :: Get url :: l).

(* the log of the later state is that of the earlier one followed by such
   a log *)
Definition probed (w : World) (s s' : State) : Prop :=
  exists l, net s' = net s ++ l /\ probe_log w l.

(* the keys of the table are dates and times that exist *)
Definition valid_keys (s : State) : Prop := Forall valid_datetime (keys (stdmet (self s))).

(* the entry line 141 adds for a month of the default walk that is not
   available *)
Definition walk_note (w : World) (m : Z) : string :=
  match month_abbr (today_year w) m with
  | Ok month_abbrv => month_abbrv +:+ " not available." +:+ nl +:+ " "
  | Raise _ => ""
  end.

(* what [dt(year, month, 1)] raises for a month number outside 1..12:
   OverflowError when an argument is outside the C int range, ValueError
   otherwise *)
Definition month_error (y m : Z) : exn :=
  if fits_c_int y && fits_c_int m then ValueError else OverflowError.

(* among the requests [l] a computation has added, a probe whose transport
   failed is the last request, and what the transport raised is what the
   computation raised *)
Definition failure_ends {A} (w : World) (l : list net_event) (r : result A) : Prop :=
  forall url e, Head url ∈ l -> head_status w url = Raise e ->
    r = Raise e /\ last l = Some (Head url).

(* the same, between the state before and the state after *)
Definition failure_raised {A} (w : World) (s : State) (r : result A) (s' : State) : Prop :=
  exists l, net s' = net s ++ l /\ failure_ends w l r.

(* the month numbers from [hi] down to [lo], both included *)
Definition months_down (hi lo : Z) : list Z := rev (seqZ lo (hi - lo + 1)).

(* valid keys before, valid keys after *)
Definition keys_stay_valid (s s' : State) : Prop := valid_keys s -> valid_keys s'.

(* fuel beyond the number of the current month *)
Definition enough_fuel (w : World) (more : nat) : nat :=
  (Z.to_nat (today_month w + 1) + more)%nat.

(* the requests a requested year, and a requested month, give rise to in a
   call that returns *)
Definition year_requests (w : World) (station : string) (y : Z) : list net_event :=
  let url := STDMET_YEARURL station (str_of_Z y) in
  if available w url then [Head url; Get url] else [Head url].

Definition month_requests (w : World) (station : string) (m : Z) : list net_event :=
  match month_abbr (today_year w) m with
  | Ok month_abbrv =>
      let url := STDMET_MONTHURL month_abbrv station in
      if available w url then [Head url; Get url] else [Head url]
  | Raise _ => []
  end.

(* the monthly address of month [m] of the current year *)
Definition walk_url (w : World) (station : string) (m : Z) : string :=
  STDMET_MONTHURL (match month_abbr (today_year w) m with Ok a => a | Raise _ => "" end)
                  station.

(** ** Concrete payloads, worlds and sessions *)

(* header '#YY MM DD hh mm WDIR WSPD', a units row, two observations: every
   column holds strings, the units row being text *)
Definition payload_2018 : list string * list (list cell) :=
  (["#YY"; "MM"; "DD"; "hh"; "mm"; "WDIR"; "WSPD"],
   [ [CStr "#yr"; CStr "mo"; CStr "dy"; CStr "hr"; CStr "mn"; CStr "degT"; CStr "m/s"];
     [CStr "2018"; CStr "04"; CStr "30"; CStr "23"; CStr "50"; CStr "309"; CStr "9.6"];
     [CStr "2018"; CStr "05"; CStr "01"; CStr "00"; CStr "50"; CStr "304"; CStr "9.3"] ]).

(* the same file for the year 2009 *)
Definition payload_2009 : list string * list (list cell) :=
  (["#YY"; "MM"; "DD"; "hh"; "mm"; "WDIR"; "WSPD"],
   [ [CStr "#yr"; CStr "mo"; CStr "dy"; CStr "hr"; CStr "mn"; CStr "degT"; CStr "m/s"];
     [CStr "2009"; CStr "01"; CStr "01"; CStr "00"; CStr "50"; CStr "180"; CStr "4.1"] ]).

(* a rolling file whose year column is the plain 'YY', with a units row *)
Definition payload_YY : list string * list (list cell) :=
  (["YY"; "MM"; "DD"; "hh"; "mm"; "WDIR"; "WSPD"],
   [ [CStr "#yr"; CStr "mo"; CStr "dy"; CStr "hr"; CStr "mn"; CStr "degT"; CStr "m/s"];
     [CStr "2018"; CStr "04"; CStr "30"; CStr "23"; CStr "50"; CStr "309"; CStr "9.6"] ]).

(* the same without a units row: the columns are numeric *)
Definition payload_YY_numeric : list string * list (list cell) :=
  (["YY"; "MM"; "DD"; "hh"; "mm"; "WDIR"; "WSPD"],
   [ [CInt 2018; CInt 4; CInt 30; CInt 23; CInt 50; CInt 309; CFloat (96 # 10)];
     [CInt 2018; CInt 5; CInt 1; CInt 0; CInt 50; CInt 304; CFloat (93 # 10)] ]).

(* two-digit years under a units row: the year column holds strings *)
Definition payload_96 : list string * list (list cell) :=
  (["#YY"; "MM"; "DD"; "hh"; "WDIR"; "WSPD"],
   [ [CStr "#yr"; CStr "mo"; CStr "dy"; CStr "hr"; CStr "degT"; CStr "m/s"];
     [CStr "96"; CStr "01"; CStr "01"; CStr "00"; CStr "180"; CStr "4.1"] ]).

(* an archive file of the two-digit era: header 'YY', no units row, numbers
   only *)
Definition payload_96_numeric : list string * list (list cell) :=
  (["YY"; "MM"; "DD"; "hh"; "WD"; "WSPD"],
   [ [CInt 96; CInt 1; CInt 1; CInt 0; CInt 180; CFloat (41 # 10)];
     [CInt 96; CInt 1; CInt 1; CInt 1; CInt 185; CFloat (43 # 10)] ]).

(* two-digit numeric years behind a text column, so that line 82 passes *)
Definition payload_96_mixed : list string * list (list cell) :=
  (["STN"; "#YY"; "MM"; "DD"; "hh"; "WD"],
   [ [CStr "b46042"; CInt 96; CInt 1; CInt 1; CInt 0; CInt 180];
     [CStr "b46042"; CInt 96; CInt 1; CInt 1; CInt 1; CInt 185] ]).

(* a well-formed file holding the 30th of February *)
Definition payload_feb30 : list string * list (list cell) :=
  (["#YY"; "MM"; "DD"; "hh"; "mm"; "WDIR"; "WSPD"],
   [ [CStr "#yr"; CStr "mo"; CStr "dy"; CStr "hr"; CStr "mn"; CStr "degT"; CStr "m/s"];
     [CStr "2018"; CStr "02"; CStr "28"; CStr "23"; CStr "50"; CStr "309"; CStr "9.6"];
     [CStr "2018"; CStr "02"; CStr "30"; CStr "00"; CStr "50"; CStr "304"; CStr "9.3"] ]).

(* a header with no year column at all *)
Definition payload_no_year : list string * list (list cell) :=
  (["MM"; "DD"; "hh"; "WDIR"],
   [ [CStr "#mo"; CStr "dy"; CStr "hr"; CStr "degT"];
     [CStr "04"; CStr "30"; CStr "23"; CStr "309"] ]).

Definition url_2018 : string := STDMET_YEARURL "46042" "2018".
Definition url_2009 : string := STDMET_YEARURL "46042" "2009".
Definition url_1996 : string := STDMET_YEARURL "46042" "1996".
Definition url_Mar : string := STDMET_MONTHURL "Mar" "46042".
Definition url_Feb : string := STDMET_MONTHURL "Feb" "46042".
Definition url_Jan : string := STDMET_MONTHURL "Jan" "46042".
Definition url_Dec : string := STDMET_MONTHURL "Dec" "46042".

(* An archive on the 5th of March 2019: the years 2018, 2009 and 1996 and
   the month of February are published, nothing else is. *)
Definition world_march : World :=
  {| today_year := 2019;
     today_month := 3;
     head_status := fun url =>
       if bool_decide (url ∈ [url_2018; url_2009; url_1996; url_Feb])
       then Ok 200 else Ok 404;
     read_csv := fun url =>
       if String.eqb url url_2018 then Ok payload_2018
       else if String.eqb url url_2009 then Ok payload_2009
       else if String.eqb url url_1996 then Ok payload_96_numeric
       else if String.eqb url url_Feb then Ok payload_2018
       else Raise TransportError |}.

(* The archive on the 5th of January 2019: the January file is not yet
   published, the December file is. *)
Definition world_january : World :=
  {| today_year := 2019;
     today_month := 1;
     head_status := fun url =>
       if bool_decide (url ∈ [url_2018; url_2009; url_1996; url_Dec])
       then Ok 200 else Ok 404;
     read_csv := fun url =>
       if String.eqb url url_Dec then Ok payload_2018 else read_csv world_march url |}.

(* An archive that cannot be reached: every request fails in transport. *)
Definition world_down : World :=
  {| today_year := 2019;
     today_month := 3;
     head_status := fun _ => Raise TransportError;
     read_csv := fun _ => Raise TransportError |}.

(* A world that serves one payload at every address. *)
Definition world_serving (p : list string * list (list cell)) : World :=
  {| today_year := 2019;
     today_month := 3;
     head_status := fun _ => Ok 200;
     read_csv := fun _ => Ok p |}.

(* N42 = DataBuoy('46042') *)
Definition session_new : State := {| self := __init__ (Some "46042"); net := [] |}.

(* N42 = DataBuoy('46042'); N42.station_id = '46042' *)
Definition session_assigned : State :=
  {| self := {| _station_id := Some "46042"; station_id := Some "46042"; stdmet := [] |};
     net := [] |}.

(* the session after the 2018 file has been loaded once, and twice *)
Definition session_once : State := (load_stdmet world_march url_2018 session_new).2.
Definition session_twice : State := (load_stdmet world_march url_2018 session_once).2.

(* the two rows the 2018 file contributes *)
Definition batch_2018 : Table :=
  [ ({| year := 2018; month := 4; day := 30; hour := 23; minute := 50 |},
     [("WDIR", CStr "309"); ("WSPD", CStr "9.6")]);
    ({| year := 2018; month := 5; day := 1; hour := 0; minute := 50 |},
     [("WDIR", CStr "304"); ("WSPD", CStr "9.3")]) ].

(* an hourly file: no minute column *)
Definition payload_hourly : list string * list (list cell) :=
  (["#YY"; "MM"; "DD"; "hh"; "WDIR"; "WSPD"],
   [ [CStr "#yr"; CStr "mo"; CStr "dy"; CStr "hr"; CStr "degT"; CStr "m/s"];
     [CStr "2018"; CStr "04"; CStr "30"; CStr "23"; CStr "309"; CStr "9.6"];
     [CStr "2018"; CStr "05"; CStr "01"; CStr "00"; CStr "304"; CStr "9.3"] ]).

(* a file that ends after its units row *)
Definition payload_units_only : list string * list (list cell) :=
  (["#YY"; "MM"; "DD"; "hh"; "mm"; "WDIR"; "WSPD"],
   [ [CStr "#yr"; CStr "mo"; CStr "dy"; CStr "hr"; CStr "mn"; CStr "degT"; CStr "m/s"] ]).

(* the hand-assigned session after the request for the years 2018 and
   1800 and the months of February and March, and after the request
   without arguments *)
Definition session_after_request : State :=
  (get_stdmet 13 world_march [2018; 1800] [2; 3] session_assigned).2.
Definition session_after_default : State :=
  (get_stdmet 13 world_march [] [] session_assigned).2.

(** * Properties *)

(** ** strptime on examples *)

Example strptime_full :
  strptime "2018 04 30 23 50" "%Y %m %d %H %M"
  = Ok {| year := 2018; month := 4; day := 30; hour := 23; minute := 50 |}.
Proof. reflexivity. Qed.

Example strptime_short_fields :
  strptime "2009 1 5 7" "%Y %m %d %H"
  = Ok {| year := 2009; month := 1; day := 5; hour := 7; minute := 0 |}.
Proof. reflexivity. Qed.

Example strptime_two_digit_year : strptime "96 01 01 00" "%Y %m %d %H" = Raise ValueError.
Proof. reflexivity. Qed.

Example strptime_feb_30 : strptime "2018 02 30 00" "%Y %m %d %H" = Raise ValueError.
Proof. reflexivity. Qed.

Example strptime_leap_day :
  strptime "2016 02 29 12" "%Y %m %d %H"
  = Ok {| year := 2016; month := 2; day := 29; hour := 12; minute := 0 |}.
Proof. reflexivity. Qed.

Example strptime_month_13 : strptime "2018 13 01 00" "%Y %m %d %H" = Raise ValueError.
Proof. reflexivity. Qed.

Example strptime_trailing : strptime "2018 04 30 23 50 7" "%Y %m %d %H %M" = Raise ValueError.
Proof. reflexivity. Qed.

(** ** The monads *)

Lemma result_bind_Ok {A B} (m : result A) (f : A -> result B) b :
  (m ≫= f) = Ok b -> exists a, m = Ok a /\ f a = Ok b.
Proof. destruct m as [a|e]; simpl; [eauto | discriminate]. Qed.

Lemma mapM_Ok_length {A B} (f : A -> result B) l k :
  mapM f l = Ok k -> length k = length l.
Proof.
  revert k. induction l as [|x l IH]; intros k; simpl.
  - by intros [= <-].
  - destruct (f x) as [y|]; simpl; [|discriminate].
    destruct (mapM f l) as [k'|]; simpl; [|discriminate].
    intros [= <-]. simpl. f_equal. by apply IH.
Qed.

(** ** Frames *)

Lemma col_pos_None name cols : name ∉ cols -> col_pos name cols = None.
Proof.
  induction cols as [|c cols IH]; [done|].
  intros Hn. apply not_elem_of_cons in Hn as [Hne Hn]. simpl.
  destruct (String.eqb_spec c name) as [->|_]; [done|].
  by rewrite IH.
Qed.

Lemma cell_at_set_cell r i c : cell_at (set_cell r i c) i = c.
Proof.
  unfold cell_at, set_cell. rewrite list_lookup_insert_eq; [done|].
  rewrite length_app, length_replicate. lia.
Qed.

Lemma drop_units_columns df df' : drop_units df = Ok df' -> columns df' = columns df.
Proof.
  unfold drop_units. intros H.
  apply result_bind_Ok in H as (r0 & _ & H).
  apply result_bind_Ok in H as (c & _ & H).
  apply result_bind_Ok in H as (a & _ & H).
  injection H as <-. by destruct (Ascii.eqb a "#").
Qed.

(** Line 93 filters [year_types] by membership in [dt_index_cols], whose
    first element is the literal '#YY': whatever the header, the year
    column the code goes on with is '#YY'. *)
Lemma year_type_is_hash_YY df :
  head (List.filter (fun x => bool_decide (x ∈ (dt_columns df).1)) year_types) = Some "#YY".
Proof. unfold dt_columns. by case_bool_decide. Qed.

Lemma dt_columns_cases df :
  dt_columns df = (["#YY"; "MM"; "DD"; "hh"],
                   <["#YY" := "%Y"]> (<["MM" := "%m"]> (<["DD" := "%d"]> (<["hh" := "%H"]> ∅))))
  \/ dt_columns df = (["#YY"; "MM"; "DD"; "hh"; "mm"],
                   <["mm" := "%M"]> (<["#YY" := "%Y"]> (<["MM" := "%m"]> (<["DD" := "%d"]> (<["hh" := "%H"]> ∅))))).
Proof. unfold dt_columns. case_bool_decide; auto. Qed.

Lemma index_batch_unfold df : index_batch df = drop_units df ≫= index_rest.
Proof.
  unfold index_batch, index_rest. destruct (drop_units df) as [df1|]; [|done]. simpl.
  pose proof (year_type_is_hash_YY df1) as Hy.
  destruct (dt_columns df1) as [cols vals]. simpl in Hy. by rewrite Hy.
Qed.

(** A header without the column '#YY' never yields a batch. *)
Lemma index_batch_needs_hash_YY df :
  "#YY" ∉ columns df -> exists e, index_batch df = Raise e.
Proof.
  intros Hn. rewrite index_batch_unfold.
  destruct (drop_units df) as [df1|e] eqn:Hd; [|by exists e]. simpl.
  apply drop_units_columns in Hd. unfold index_rest.
  destruct (dt_columns df1) as [cols vals].
  unfold df_col. rewrite Hd, (col_pos_None _ _ Hn). by exists KeyError.
Qed.

(** ** load_stdmet *)

(** The whole effect of [load_stdmet]: one download; the table is replaced
    by itself followed by the batch when lines 79-106 go through, and the
    object is not touched when they raise. *)
Lemma load_stdmet_spec w url s :
  load_stdmet w url s =
  match read_csv w url ≫= (fun p => index_batch (mk_frame p.1 p.2)) with
  | Ok batch => (Ok tt, {| self := with_stdmet (self s) (stdmet (self s) ++ batch);
                           net := net s ++ [Get url] |})
  | Raise e => (Raise e, {| self := self s; net := net s ++ [Get url] |})
  end.
Proof.
  unfold load_stdmet, mbind, M_bind, emit, lift, get_self, set_stdmet. simpl.
  destruct (read_csv w url) as [p|e]; simpl; [|done].
  by destruct (index_batch (mk_frame p.1 p.2)).
Qed.

Lemma load_stdmet_attrs w url s r s' :
  load_stdmet w url s = (r, s') ->
  _station_id (self s') = _station_id (self s) /\ station_id (self s') = station_id (self s).
Proof.
  rewrite load_stdmet_spec.
  destruct (read_csv w url ≫= _); intros [= <- <-]; done.
Qed.

(** ** The two-digit branch *)

Lemma floor_log10_nonneg fuel n : 0 <= log10_fuel fuel n.
Proof.
  revert n. induction fuel as [|f IH]; intros n; simpl; [lia|].
  destruct (n <? 10); [lia|]. specialize (IH (n / 10)). lia.
Qed.

(** The test of line 96 holds exactly for the values from 10 to 99. *)
Lemma two_digit_year_spec n :
  two_digit_year n =
  if n <=? 0 then Raise ValueError else Ok ((10 <=? n) && (n <=? 99)).
Proof.
  unfold two_digit_year, math_log10.
  destruct (Z.leb_spec n 0) as [|Hpos]; [done|]. simpl. f_equal.
  unfold floor_log10.
  destruct (Z.leb_spec 10 n) as [H10|H10]; simpl.
  - assert (3 <= Z.log2 n) by (apply (Z.log2_le_pow2 n 3); lia).
    destruct (Z.to_nat (Z.log2 n)) as [|[|k]] eqn:Hk; [lia|lia|].
    cbn [log10_fuel].
    destruct (Z.ltb_spec n 10); [lia|].
    destruct (Z.leb_spec n 99) as [H99|H99].
    + destruct (Z.ltb_spec (n / 10) 10) as [|Hge]; [done|].
      exfalso. assert (n / 10 < 10) by (apply Z.div_lt_upper_bound; lia). lia.
    + destruct (Z.ltb_spec (n / 10) 10) as [Hlt|_].
      * exfalso. assert (10 <= n / 10) by (apply Z.div_le_lower_bound; lia). lia.
      * pose proof (floor_log10_nonneg (S k) (n / 10 / 10)).
        cbn [log10_fuel] in *. apply Z.eqb_neq. 
        destruct (n / 10 / 10 <? 10); lia.
  - cbn [log10_fuel]. destruct (Z.ltb_spec n 10); [done | lia].
Qed.

Lemma add_1900_not_str c c' : add_1900 c = Ok c' -> forall s, c' <> CStr s.
Proof. destruct c; simpl; intros [= <-]; done. Qed.

Lemma df_add_1900_Ok df name df2 :
  df_add_1900 df name = Ok df2 ->
  exists i new,
    col_pos name (columns df) = Some i
    /\ mapM (fun r => add_1900 (cell_at r.2 i)) (rows df) = Ok new
    /\ columns df2 = columns df
    /\ rows df2 = zip_with (fun r c => (r.1, set_cell r.2 i c)) (rows df) new.
Proof.
  unfold df_add_1900. intros H.
  destruct (col_pos name (columns df)) as [i|]; simpl in H; [|done].
  destruct (mapM _ (rows df)) as [new|] eqn:Hm; simpl in H; [|done].
  injection H as <-. by exists i, new.
Qed.

Lemma tuple_join_number c x : (forall s, c <> CStr s) -> tuple_join (c :: x) = Raise TypeError.
Proof. intros Hc. unfold tuple_join. simpl. destruct c; [by destruct (Hc s)|done..]. Qed.

(** Once 1900 has been added to the year column, the column holds no
    string, and the join of line 103 raises on the first row: a frame on
    which the two-digit test succeeds is never indexed. *)
Lemma two_digit_never_loads df col v n :
  df_col df "#YY" = Ok col -> series_at col 1 = Ok v -> py_int v = Ok n ->
  two_digit_year n = Ok true ->
  exists e, index_rest df = Raise e.
Proof.
  intros Hcol Hv Hn Htwo. unfold index_rest.
  destruct (dt_columns df) as [cols vals] eqn:Hdt.
  rewrite Hcol. simpl. rewrite Hv. simpl. rewrite Hn. simpl. rewrite Htwo. simpl.
  destruct (df_add_1900 df "#YY") as [df2|e] eqn:Hadd; [|by exists e]. simpl.
  destruct (mapM _ (<[0%nat:="#YY"]> cols)) as [fmts|e]; [|by exists e]. simpl.
  apply df_add_1900_Ok in Hadd as (i & new & Hi & Hnew & Hc2 & Hr2).
  assert (exists cols', <[0%nat:="#YY"]> cols = "#YY" :: cols') as [cols' ->].
  { destruct (dt_columns_cases df) as [E|E]; rewrite E in Hdt;
      injection Hdt as <- _; eauto. }
  unfold set_index. rewrite Hc2. simpl. rewrite Hi. simpl.
  destruct (mapM _ cols') as [ps|e]; [|by exists e]. simpl.
  rewrite Hr2.
  destruct (rows df) as [|[l0 r0] rs] eqn:Hrows.
  { unfold df_col in Hcol. rewrite Hi, Hrows in Hcol. simpl in Hcol.
    injection Hcol as <-. discriminate. }
  simpl in Hnew.
  destruct (add_1900 (cell_at r0 i)) as [c|] eqn:Hc; simpl in Hnew; [|done].
  destruct (mapM _ rs) as [cs|]; simpl in Hnew; [|done].
  injection Hnew as <-. simpl.
  rewrite cell_at_set_cell, (tuple_join_number c _ (add_1900_not_str _ _ Hc)).
  by exists TypeError.
Qed.

(** ** What a successful indexing returns *)

Lemma index_cols_head df : <[0%nat:="#YY"]> (dt_columns df).1 = (dt_columns df).1.
Proof. by destruct (dt_columns_cases df) as [-> | ->]. Qed.

(** One table row per frame row, in order, holding the row's values outside
    the date/time columns. *)
Lemma index_rest_Ok df batch :
  index_rest df = Ok batch ->
  exists dt_vals,
    length dt_vals = length (rows df)
    /\ batch = zip dt_vals (row_values (columns df) (dt_columns df).1 <$> (rows df).*2).
Proof.
  intros H. pose proof H as H0. unfold index_rest in H.
  pose proof (index_cols_head df) as Hhead.
  destruct (dt_columns df) as [cols vals]. simpl in Hhead. rewrite Hhead in H.
  destruct (df_col df "#YY") as [col|] eqn:Hcol; simpl in H; [|done].
  destruct (series_at col 1) as [v|] eqn:Hv; simpl in H; [|done].
  destruct (py_int v) as [n|] eqn:Hn; simpl in H; [|done].
  destruct (two_digit_year n) as [[|]|] eqn:Htwo; simpl in H; [| |done].
  { destruct (two_digit_never_loads df col v n Hcol Hv Hn Htwo) as [e He].
    rewrite He in H0. discriminate. }
  destruct (mapM _ cols) as [fmts|]; simpl in H; [|done].
  unfold set_index in H.
  destruct (mapM _ cols) as [ps|]; simpl in H; [|done].
  destruct (mapM _ (List.map _ (rows df))) as [dt_vals|] eqn:Hm; simpl in H; [|done].
  injection H as <-. exists dt_vals. split.
  - apply mapM_Ok_length in Hm. by rewrite Hm, length_map.
  - f_equal. simpl. generalize (rows df). intros l.
    induction l as [|r l IHl]; [done|]. simpl. f_equal. apply IHl.
Qed.

Lemma drop_label_0 (g : nat -> Z) (body : list (list cell)) :
  (forall i, g i <> 0) ->
  (List.filter (fun r => negb (r.1 =? 0)) (imap (fun i r => (g i, r)) body)).*2 = body.
Proof.
  revert g. induction body as [|r body IH]; intros g Hg; [done|].
  simpl. destruct (Z.eqb_spec (g 0%nat) 0) as [E|_]; [by destruct (Hg 0%nat)|].
  simpl. f_equal. apply (IH (fun i => g (S i))). intros i. apply Hg.
Qed.

(** Lines 82-84 on a frame whose first row starts with '#'. *)
Lemma drop_units_marked header r0 body t :
  header <> [] -> cell_at r0 0 = CStr (String "#" t) ->
  drop_units (mk_frame header (r0 :: body)) = Ok (df_drop (mk_frame header (r0 :: body)) 0).
Proof.
  intros Hh Hc. unfold drop_units, df_loc, row_first. simpl.
  destruct header; [done|]. simpl. by rewrite Hc.
Qed.

Lemma drop_units_empty_header body : drop_units (mk_frame [] body) = Raise KeyError
  \/ drop_units (mk_frame [] body) = Raise IndexError.
Proof. unfold drop_units, df_loc. destruct body; simpl; auto. Qed.

Lemma rows_after_units header r0 body :
  (rows (df_drop (mk_frame header (r0 :: body)) 0)).*2 = body.
Proof.
  unfold df_drop, mk_frame. simpl.
  apply (drop_label_0 (fun i => Z.of_nat (S i))). lia.
Qed.

(** ** Invariants of the methods *)

Section Keeps.
Context (R : State -> State -> Prop) `{!PreOrder R}.

Lemma keeps_ret {A} (a : A) : keeps R (mret a).
Proof. intros s r s' [= <- <-]. reflexivity. Qed.

Lemma keeps_lift {A} (x : result A) : keeps R (lift x).
Proof. intros s r s' [= <- <-]. reflexivity. Qed.

Lemma keeps_get_self : keeps R get_self.
Proof. intros s r s' [= <- <-]. reflexivity. Qed.

Lemma keeps_bind {A B} (m : M A) (f : A -> M B) :
  keeps R m -> (forall a, keeps R (f a)) -> keeps R (m ≫= f).
Proof.
  intros Hm Hf s r s' H. unfold mbind, M_bind in H.
  destruct (m s) as [[a|e] s1] eqn:E.
  - transitivity s1; [by eapply Hm | by eapply Hf].
  - injection H as <- <-. by eapply Hm.
Qed.

Lemma keeps_if {A} (b : bool) (m1 m2 : M A) :
  keeps R m1 -> keeps R m2 -> keeps R (if b then m1 else m2).
Proof. by destruct b. Qed.

(* the two steps that change the state: a probe's request and a load *)
Hypothesis R_head : forall url, keeps R (emit (Head url)).
Hypothesis R_load : forall w url, keeps R (load_stdmet w url).

(* go through a sequence of binds, closing the primitive steps *)
Ltac keeps_step :=
  first [ apply keeps_ret | apply keeps_lift | apply keeps_get_self | apply R_head
        | apply R_load
        | match goal with H : context [keeps] |- _ => apply H end
        | apply keeps_if
        | apply keeps_bind; [|intros ?] ].

Lemma keeps_self_station_id : keeps R self_station_id.
Proof. unfold self_station_id. repeat keeps_step. Qed.

Lemma keeps_checkurl w url : keeps R (__checkurl__ w url).
Proof. unfold __checkurl__. repeat keeps_step. Qed.

Lemma keeps_default_walk fuel w month_num valid my_url times_unavailable :
  keeps R (default_walk fuel w month_num valid my_url times_unavailable).
Proof.
  revert month_num valid my_url times_unavailable.
  induction fuel as [|fuel IH]; intros month_num valid my_url tu; simpl;
    destruct ((month_num >=? 0) && negb valid); try apply keeps_ret.
  pose proof keeps_self_station_id. pose proof keeps_checkurl.
  repeat keeps_step.
Qed.

Lemma keeps_years_loop w years times_unavailable :
  keeps R (years_loop w years times_unavailable).
Proof.
  revert times_unavailable. induction years as [|y years IH]; intros tu; simpl;
    [apply keeps_ret|].
  pose proof keeps_self_station_id. pose proof keeps_checkurl.
  repeat keeps_step.
Qed.

Lemma keeps_months_loop w months times_unavailable :
  keeps R (months_loop w months times_unavailable).
Proof.
  revert times_unavailable. induction months as [|m months IH]; intros tu; simpl;
    [apply keeps_ret|].
  pose proof keeps_self_station_id. pose proof keeps_checkurl.
  repeat keeps_step.
Qed.

Lemma keeps_get_stdmet fuel w years months : keeps R (get_stdmet fuel w years months).
Proof.
  pose proof keeps_years_loop. pose proof keeps_months_loop.
  pose proof keeps_default_walk.
  unfold get_stdmet. apply keeps_bind; [|intros; apply keeps_ret].
  destruct years, months; repeat keeps_step.
  destruct a as [[my_url tu]|]; repeat keeps_step.
Qed.
End Keeps.

#[global] Instance same_station_preorder : PreOrder same_station.
Proof.
  split.
  - intros s. by split.
  - intros s1 s2 s3 [H1 H2] [H3 H4]. split; congruence.
Qed.

#[global] Instance table_grows_preorder : PreOrder table_grows.
Proof.
  split.
  - intros s. unfold table_grows. reflexivity.
  - intros s1 s2 s3 H1 H2. unfold table_grows in *. by etransitivity.
Qed.

(** No method assigns the station attributes: whatever a call to
    [get_stdmet] does, they are afterwards what they were. *)
Lemma get_stdmet_same_station fuel w years months :
  keeps same_station (get_stdmet fuel w years months).
Proof.
  apply keeps_get_stdmet; [apply _ | |].
  - intros url s r s' [= <- <-]. by split.
  - intros w' url s r s' H. by apply load_stdmet_attrs in H.
Qed.

(** The table is never pruned: a call leaves the earlier rows in place,
    also when it raises. *)
Lemma get_stdmet_table_grows fuel w years months :
  keeps table_grows (get_stdmet fuel w years months).
Proof.
  apply keeps_get_stdmet; [apply _ | |].
  - intros url s r s' [= <- <-]. unfold table_grows. reflexivity.
  - intros w' url s r s' H. rewrite load_stdmet_spec in H. unfold table_grows.
    destruct (read_csv w' url ≫= _) as [batch|e]; injection H as <- <-; [|done].
    by apply prefix_app_r.
Qed.

(** ** Strings *)

Lemma string_app_assoc (a b c : string) : (a +:+ b) +:+ c = a +:+ (b +:+ c).
Proof.
  induction a as [|x a IH]; [done|].
  change (String x ((a +:+ b) +:+ c) = String x (a +:+ (b +:+ c))). by f_equal.
Qed.

Lemma string_app_nil_r (a : string) : a +:+ "" = a.
Proof.
  induction a as [|x a IH]; [done|].
  change (String x (a +:+ "") = String x a). by f_equal.
Qed.

(** ** One step of each loop of get_stdmet *)

Lemma self_station_id_run s :
  self_station_id s = (of_option (station_id (self s)) AttributeError, s).
Proof. done. Qed.

Lemma checkurl_run w url s :
  __checkurl__ w url s =
  (match head_status w url with Ok status_code => Ok (status_code =? 200) | Raise e => Raise e end,
   {| self := self s; net := net s ++ [Head url] |}).
Proof.
  unfold __checkurl__, mbind, M_bind, emit, lift. simpl.
  by destruct (head_status w url).
Qed.

Lemma mk_datetime_Ok y m d H M dt :
  mk_datetime y m d H M = Ok dt ->
  valid_datetime dt /\ dt = {| year := y; month := m; day := d; hour := H; minute := M |}.
Proof.
  unfold mk_datetime, valid_datetime.
  destruct (negb _); [discriminate|].
  destruct (_ && _) eqn:E; [|discriminate]. intros [= <-]. simpl.
  repeat (apply andb_prop in E as [E ?]). split; [lia | done].
Qed.

Lemma fits_c_int_spec z : fits_c_int z = true <-> - 2 ^ 31 <= z < 2 ^ 31.
Proof. unfold fits_c_int. rewrite andb_true_iff, Z.leb_le, Z.ltb_lt. done. Qed.

Lemma month_abbr_Ok y m a : month_abbr y m = Ok a -> 1 <= m <= 12.
Proof.
  unfold month_abbr. destruct (mk_datetime y m 1 0 0) as [d|] eqn:E; [|done].
  intros _. apply mk_datetime_Ok in E as [(_ & Hm & _) ->]. exact Hm.
Qed.

Lemma default_walk_step fuel w month_num valid my_url tu s :
  default_walk (S fuel) w month_num valid my_url tu s =
  if (month_num >=? 0) && negb valid then
    match month_abbr (today_year w) month_num with
    | Raise e => (Raise e, s)
    | Ok month_abbrv =>
        match station_id (self s) with
        | None => (Raise AttributeError, s)
        | Some station =>
            let url := STDMET_MONTHURL month_abbrv station in
            let s1 := {| self := self s; net := net s ++ [Head url] |} in
            match head_status w url with
            | Raise e => (Raise e, s1)
            | Ok status_code =>
                default_walk fuel w (month_num - 1) (status_code =? 200) (Some url)
                  (if status_code =? 200 then tu
                   else tu +:+ month_abbrv +:+ " not available." +:+ nl +:+ " ") s1
            end
        end
    end
  else (Ok (Some (my_url, tu)), s).
Proof.
  simpl. destruct ((month_num >=? 0) && negb valid); [|done].
  unfold mbind at 1, M_bind at 1, lift at 1.
  destruct (month_abbr (today_year w) month_num) as [a|]; [|done].
  unfold mbind at 1, M_bind at 1. rewrite self_station_id_run.
  destruct (station_id (self s)) as [station|]; [|done]. simpl.
  unfold mbind at 1, M_bind at 1. rewrite checkurl_run.
  by destruct (head_status w _).
Qed.

Lemma years_loop_step w y years tu s :
  years_loop w (y :: years) tu s =
  match station_id (self s) with
  | None => (Raise AttributeError, s)
  | Some station =>
      let url := STDMET_YEARURL station (str_of_Z y) in
      let s1 := {| self := self s; net := net s ++ [Head url] |} in
      match head_status w url with
      | Raise e => (Raise e, s1)
      | Ok status_code =>
          if status_code =? 200 then
            match load_stdmet w url s1 with
            | (Ok _, s2) => years_loop w years tu s2
            | (Raise e, s2) => (Raise e, s2)
            end
          else years_loop w years (tu +:+ "Year " +:+ str_of_Z y +:+ " not available." +:+ nl) s1
      end
  end.
Proof.
  simpl. unfold mbind at 1, M_bind at 1. rewrite self_station_id_run.
  destruct (station_id (self s)) as [station|]; [|done]. simpl.
  unfold mbind at 1, M_bind at 1. rewrite checkurl_run.
  destruct (head_status w _) as [c|]; [|done].
  destruct (c =? 200); [|done].
  unfold mbind, M_bind.
  by destruct (load_stdmet w _ _) as [[[]|] s2].
Qed.

Lemma months_loop_step w m months tu s :
  months_loop w (m :: months) tu s =
  match month_abbr (today_year w) m with
  | Raise e => (Raise e, s)
  | Ok month_abbrv =>
      match station_id (self s) with
      | None => (Raise AttributeError, s)
      | Some station =>
          let url := STDMET_MONTHURL month_abbrv station in
          let s1 := {| self := self s; net := net s ++ [Head url] |} in
          match head_status w url with
          | Raise e => (Raise e, s1)
          | Ok status_code =>
              if status_code =? 200 then
                match load_stdmet w url s1 with
                | (Ok _, s2) => months_loop w months tu s2
                | (Raise e, s2) => (Raise e, s2)
                end
              else months_loop w months (tu +:+ month_abbrv +:+ " not available." +:+ nl) s1
          end
      end
  end.
Proof.
  simpl. unfold mbind at 1, M_bind at 1, lift at 1.
  destruct (month_abbr (today_year w) m) as [a|]; [|done].
  unfold mbind at 1, M_bind at 1. rewrite self_station_id_run.
  destruct (station_id (self s)) as [station|]; [|done]. simpl.
  unfold mbind at 1, M_bind at 1. rewrite checkurl_run.
  destruct (head_status w _) as [c|]; [|done].
  destruct (c =? 200); [|done].
  unfold mbind, M_bind.
  by destruct (load_stdmet w _ _) as [[[]|] s2].
Qed.

(** ** get_stdmet, branch by branch *)

Lemma get_stdmet_default fuel w s :
  get_stdmet fuel w [] [] s =
  match default_walk fuel w (today_month w) false None "" s with
  | (Raise e, s1) => (Raise e, s1)
  | (Ok None, s1) => (Ok None, s1)
  | (Ok (Some (None, _)), s1) => (Raise UnboundLocalError, s1)
  | (Ok (Some (Some url, tu)), s1) =>
      match load_stdmet w url s1 with
      | (Ok _, s2) => (Ok (Some (returned tu)), s2)
      | (Raise e, s2) => (Raise e, s2)
      end
  end.
Proof.
  unfold get_stdmet, mbind, M_bind, lift.
  destruct (default_walk fuel w (today_month w) false None "" s)
    as [[[[[url|] tu]|]|e] s1]; try done.
  simpl. by destruct (load_stdmet w url s1) as [[[]|] s2].
Qed.

Lemma get_stdmet_explicit fuel w years months s :
  years <> [] \/ months <> [] ->
  get_stdmet fuel w years months s =
  match years_loop w years "" s with
  | (Raise e, s1) => (Raise e, s1)
  | (Ok tu, s1) =>
      match months_loop w months tu s1 with
      | (Raise e, s2) => (Raise e, s2)
      | (Ok tu, s2) => (Ok (Some (returned tu)), s2)
      end
  end.
Proof.
  intros Hne.
  assert (get_stdmet fuel w years months s =
          ((times_unavailable ← years_loop w years "";
            times_unavailable ← months_loop w months times_unavailable;
            mret (Some times_unavailable)) ≫=
           (fun r => mret ((fun tu : string => returned tu) <$> r))) s) as ->.
  { unfold get_stdmet. destruct years, months; try done. by destruct Hne. }
  unfold mbind, M_bind.
  destruct (years_loop w years "" s) as [[tu|] s1]; [|done].
  by destruct (months_loop w months tu s1) as [[tu'|] s2].
Qed.

(** A session on which [station_id] was never assigned: every call raises
    before any request is issued, and leaves the session as it was. *)
Lemma get_stdmet_unassigned fuel w years months s :
  station_id (self s) = None ->
  exists e, get_stdmet (S fuel) w years months s = (Raise e, s).
Proof.
  intros Hs. destruct years as [|y years].
  - destruct months as [|m months].
    + rewrite get_stdmet_default, default_walk_step. simpl.
      destruct (today_month w >=? 0); simpl; [|by exists UnboundLocalError].
      destruct (month_abbr _ _) as [a|e]; [|by exists e].
      rewrite Hs. by exists AttributeError.
    + rewrite get_stdmet_explicit by (by right).
      simpl years_loop. unfold mret, M_ret. rewrite months_loop_step.
      destruct (month_abbr _ _) as [a|e]; [|by exists e].
      rewrite Hs. by exists AttributeError.
  - rewrite get_stdmet_explicit by (by left).
    rewrite years_loop_step, Hs. by exists AttributeError.
Qed.

(** ** The default walk is bounded *)

Lemma probes_only_refl n s : probes_only n s s.
Proof. exists []. simpl. rewrite app_nil_r. split; [done | lia]. Qed.

(* the walk ends here, in the state it was entered in *)
Ltac ends_here H :=
  injection H as <- <-; split; [done|]; split; [done|]; apply probes_only_refl.

(** Fuel beyond the month number is never used up; the walk issues HEAD
    requests only, at most as many as the month number it starts from. *)
Lemma default_walk_bounded fuel w month_num valid my_url tu s r s' :
  (Z.to_nat (month_num + 1) <= fuel)%nat ->
  default_walk fuel w month_num valid my_url tu s = (r, s') ->
  r <> Ok None /\ self s' = self s /\ probes_only (Z.to_nat month_num) s s'.
Proof.
  revert month_num valid my_url tu s.
  induction fuel as [|fuel IH]; intros month_num valid my_url tu s Hfuel H.
  - simpl in H. destruct (Z.geb_spec month_num 0); [lia|]. simpl in H. ends_here H.
  - rewrite default_walk_step in H.
    destruct ((month_num >=? 0) && negb valid); [|ends_here H].
    destruct (month_abbr (today_year w) month_num) as [a|e] eqn:Ha; [|ends_here H].
    apply month_abbr_Ok in Ha.
    destruct (station_id (self s)) as [station|]; [|ends_here H].
    simpl in H.
    destruct (head_status w _) as [c|e].
    2:{ injection H as <- <-. split; [done|]. split; [done|].
        exists [STDMET_MONTHURL a station]. split; [done | simpl; lia]. }
    apply IH in H as (Hr & Hself & urls & Hnet & Hlen); [|lia].
    split; [done|]. split; [done|].
    exists (STDMET_MONTHURL a station :: urls). simpl in *.
    rewrite Hnet, <- app_assoc. split; [done | lia].
Qed.

(** With fuel beyond the current month number the model of the call is the
    call: the fuel is not used up. *)
Lemma get_stdmet_terminates fuel w years months s :
  (Z.to_nat (today_month w + 1) <= fuel)%nat ->
  (get_stdmet fuel w years months s).1 <> Ok None.
Proof.
  intros Hfuel. destruct years as [|y years], months as [|m months].
  - rewrite get_stdmet_default.
    destruct (default_walk fuel w (today_month w) false None "" s)
      as [[[[[url|] tu]|]|e] s1] eqn:Hw; simpl; try done.
    + by destruct (load_stdmet w url s1) as [[[]|] s2].
    + by apply default_walk_bounded in Hw as [? _].
  - rewrite get_stdmet_explicit by (by right).
    destruct (years_loop _ _ _ _) as [[tu|] s1]; [|done].
    by destruct (months_loop _ _ _ _) as [[tu'|] s2].
  - rewrite get_stdmet_explicit by (by left).
    destruct (years_loop _ _ _ _) as [[tu|] s1]; [|done].
    by destruct (months_loop _ _ _ _) as [[tu'|] s2].
  - rewrite get_stdmet_explicit by (by left).
    destruct (years_loop _ _ _ _) as [[tu|] s1]; [|done].
    by destruct (months_loop _ _ _ _) as [[tu'|] s2].
Qed.

(** The default search probes at most as many addresses as the number of
    the current month, and downloads at most one file. *)
Lemma get_stdmet_default_probes fuel w s r s' :
  (Z.to_nat (today_month w + 1) <= fuel)%nat ->
  get_stdmet fuel w [] [] s = (r, s') ->
  exists urls rest,
    net s' = net s ++ (Head <$> urls) ++ rest
    /\ (length urls <= Z.to_nat (today_month w))%nat
    /\ (length rest <= 1)%nat.
Proof.
  intros Hfuel H. rewrite get_stdmet_default in H.
  destruct (default_walk fuel w (today_month w) false None "" s) as [r1 s1] eqn:Hw.
  apply default_walk_bounded in Hw as (_ & _ & urls & Hnet & Hlen); [|done].
  assert (s' = s1 -> exists urls rest,
    net s' = net s ++ (Head <$> urls) ++ rest
    /\ (length urls <= Z.to_nat (today_month w))%nat /\ (length rest <= 1)%nat) as Hstay.
  { intros ->. exists urls, []. rewrite app_nil_r. simpl. split; [done|]. lia. }
  destruct r1 as [[[[url|] tu]|]|e]; try (injection H as _ <-; by apply Hstay).
  rewrite load_stdmet_spec in H.
  exists urls, [Get url]. simpl.
  destruct (read_csv w url ≫= _); injection H as _ <-; simpl;
    rewrite Hnet, <- app_assoc; (split; [done|lia]).
Qed.

(** After the constructor alone [station_id] is unassigned, whatever code
    was given: the first call of [get_stdmet] raises and requests nothing. *)
Lemma get_stdmet_after_init fuel w years months station_id_arg :
  exists e, get_stdmet (S fuel) w years months {| self := __init__ station_id_arg; net := [] |}
            = (Raise e, {| self := __init__ station_id_arg; net := [] |}).
Proof. by apply get_stdmet_unassigned. Qed.

(** The walk on the 5th of March, the March file missing and the February
    file published: two probes, one download, and the advisory of line 141. *)
Example default_walk_in_march :
  get_stdmet 13 world_march [] [] session_assigned
  = (Ok (Some (Some ("Mar not available." +:+ nl +:+ " "))),
     {| self := with_stdmet (self session_assigned) batch_2018;
        net := [Head url_Mar; Head url_Feb; Get url_Feb] |}).
Proof. vm_compute. reflexivity. Qed.

(** ** The advisory of an explicit request

    For a session on which [station_id] is readable: when the call returns,
    it returns the notes of the requested periods in request order, one
    for each period whose probe did not answer 200 and none for the others. *)

Lemma concat_notes_app l1 l2 : concat_notes (l1 ++ l2) = concat_notes l1 +:+ concat_notes l2.
Proof.
  induction l1 as [|a l1 IH]; [done|].
  change (a +:+ concat_notes (l1 ++ l2) = (a +:+ concat_notes l1) +:+ concat_notes l2).
  by rewrite IH, string_app_assoc.
Qed.

Lemma load_stdmet_station_id w url s r s' :
  load_stdmet w url s = (r, s') -> station_id (self s') = station_id (self s).
Proof. intros H. by apply load_stdmet_attrs in H as [_ ?]. Qed.

Lemma years_loop_Ok w station years tu s tu' s' :
  station_id (self s) = Some station ->
  years_loop w years tu s = (Ok tu', s') ->
  tu' = tu +:+ concat_notes (year_note w station <$> years)
  /\ station_id (self s') = Some station.
Proof.
  revert tu s. induction years as [|y years IH]; intros tu s Hs H.
  - injection H as <- <-. split; [|done].
    induction tu as [|x tu IHtu]; [done|].
    change (String x tu = String x (tu +:+ "")). by f_equal.
  - rewrite years_loop_step, Hs in H. simpl in H.
    change (year_note w station <$> y :: years)
      with (year_note w station y :: (year_note w station <$> years)).
    unfold year_note at 1, available.
    destruct (head_status w _) as [c|]; [|done].
    destruct (c =? 200).
    + destruct (load_stdmet w _ _) as [[[]|] s2] eqn:Hl; [|done].
      apply load_stdmet_station_id in Hl. simpl in Hl.
      apply IH in H; [|congruence]. done.
    + apply IH in H as [-> ?]; [|done]. split; [|done].
      change (concat_notes (?a :: ?l)) with (a +:+ concat_notes l).
      by rewrite !string_app_assoc.
Qed.

Lemma months_loop_Ok w station months tu s tu' s' :
  station_id (self s) = Some station ->
  months_loop w months tu s = (Ok tu', s') ->
  tu' = tu +:+ concat_notes (month_note w station <$> months)
  /\ station_id (self s') = Some station.
Proof.
  revert tu s. induction months as [|m months IH]; intros tu s Hs H.
  - injection H as <- <-. split; [|done].
    induction tu as [|x tu IHtu]; [done|].
    change (String x tu = String x (tu +:+ "")). by f_equal.
  - rewrite months_loop_step in H.
    change (month_note w station <$> m :: months)
      with (month_note w station m :: (month_note w station <$> months)).
    unfold month_note at 1, available.
    destruct (month_abbr _ _) as [a|]; [|done].
    rewrite Hs in H. simpl in H.
    destruct (head_status w _) as [c|]; [|done].
    destruct (c =? 200).
    + destruct (load_stdmet w _ _) as [[[]|] s2] eqn:Hl; [|done].
      apply load_stdmet_station_id in Hl. simpl in Hl.
      apply IH in H; [|congruence]. done.
    + apply IH in H as [-> ?]; [|done]. split; [|done].
      change (concat_notes (?a :: ?l)) with (a +:+ concat_notes l).
      by rewrite !string_app_assoc.
Qed.

Lemma get_stdmet_explicit_Ok fuel w station years months s r s' :
  station_id (self s) = Some station ->
  years <> [] \/ months <> [] ->
  get_stdmet fuel w years months s = (Ok r, s') ->
  r = Some (returned (advisory w station years months)).
Proof.
  intros Hs Hne H. rewrite get_stdmet_explicit in H by done.
  destruct (years_loop w years "" s) as [[tu|] s1] eqn:Hy; [|done].
  apply years_loop_Ok with (station := station) in Hy as [-> Hs1]; [|done].
  destruct (months_loop w months _ s1) as [[tu'|] s2] eqn:Hm; [|done].
  apply months_loop_Ok with (station := station) in Hm as [-> _]; [|done].
  injection H as <- <-. unfold advisory. by rewrite concat_notes_app.
Qed.

Lemma returned_None tu : returned tu = None <-> tu = "".
Proof. unfold returned. destruct tu; simpl; [done|]. split; discriminate. Qed.

Lemma string_app_empty (a b : string) : a +:+ b = "" -> a = "" /\ b = "".
Proof. by destruct a. Qed.

Lemma year_note_empty w station y :
  year_note w station y = "" <-> available w (STDMET_YEARURL station (str_of_Z y)) = true.
Proof. unfold year_note. destruct (available w _); [done|]. split; discriminate. Qed.

Lemma month_note_empty w station m month_abbrv :
  month_abbr (today_year w) m = Ok month_abbrv ->
  month_note w station m = "" <-> available w (STDMET_MONTHURL month_abbrv station) = true.
Proof.
  intros Ha. unfold month_note. rewrite Ha.
  destruct (available w _); [done|]. split; [|discriminate].
  intros H. apply string_app_empty in H as [_ H]. discriminate.
Qed.

Lemma concat_notes_empty l : concat_notes l = "" <-> Forall (fun note => note = "") l.
Proof.
  induction l as [|a l IH]; [by split|].
  change (concat_notes (a :: l)) with (a +:+ concat_notes l). split.
  - intros H. apply string_app_empty in H as [-> H]. constructor; [done | by apply IH].
  - intros H. apply Forall_cons in H as [-> H]. by apply IH.
Qed.

(** A call for explicit periods that returns, returns None exactly when
    every requested period was available. *)
Lemma get_stdmet_returns_None fuel w station years months s s' :
  station_id (self s) = Some station ->
  years <> [] \/ months <> [] ->
  get_stdmet fuel w years months s = (Ok (Some None), s') ->
  Forall (fun y => available w (STDMET_YEARURL station (str_of_Z y)) = true) years
  /\ Forall (fun m => month_note w station m = "") months.
Proof.
  intros Hs Hne H. apply get_stdmet_explicit_Ok with (station := station) in H; [|done..].
  injection H as H. symmetry in H. apply returned_None in H.
  unfold advisory in H. apply concat_notes_empty in H.
  apply Forall_app in H as [Hy Hm]. split.
  - apply Forall_fmap in Hy. eapply Forall_impl; [exact Hy|].
    intros y Hn. by apply year_note_empty.
  - by apply Forall_fmap in Hm.
Qed.

(** ** What a successful indexing has gone through *)

Lemma mapM_Ok_Forall2 {A B} (f : A -> result B) l k :
  mapM f l = Ok k -> Forall2 (fun x y => f x = Ok y) l k.
Proof.
  revert k. induction l as [|x l IH]; intros k; simpl.
  - intros [= <-]. constructor.
  - destruct (f x) as [y|] eqn:Hx; simpl; [|discriminate].
    destruct (mapM f l) as [k'|]; simpl; [|discriminate].
    intros [= <-]. constructor; [done | by apply IH].
Qed.

Lemma col_pos_elem name cols i : col_pos name cols = Some i -> name ∈ cols.
Proof.
  revert i. induction cols as [|c cols IH]; [done|]. intros i. simpl.
  destruct (String.eqb_spec c name) as [->|_]; [intros _; by left|].
  destruct (col_pos name cols) as [j|]; simpl; [|done].
  intros _. right. by eapply IH.
Qed.

(** Every step of lines 93-106 that a successful indexing has passed. *)
Lemma index_rest_inv df batch :
  index_rest df = Ok batch ->
  exists col v n fmts indexed dt_vals,
    df_col df "#YY" = Ok col
    /\ series_at col 1 = Ok v
    /\ py_int v = Ok n
    /\ two_digit_year n = Ok false
    /\ mapM (fun x => of_option ((dt_columns df).2 !! x) KeyError) (dt_columns df).1 = Ok fmts
    /\ set_index df (dt_columns df).1 = Ok indexed
    /\ mapM (fun r => s ← tuple_join r.1; strptime s (join_sp fmts)) indexed = Ok dt_vals
    /\ batch = zip dt_vals indexed.*2.
Proof.
  intros H. pose proof H as H0. unfold index_rest in H.
  pose proof (index_cols_head df) as Hhead.
  destruct (dt_columns df) as [cols vals]. simpl in Hhead. rewrite Hhead in H.
  destruct (df_col df "#YY") as [col|] eqn:Hcol; simpl in H; [|done].
  destruct (series_at col 1) as [v|] eqn:Hv; simpl in H; [|done].
  destruct (py_int v) as [n|] eqn:Hn; simpl in H; [|done].
  destruct (two_digit_year n) as [[|]|] eqn:Htwo; simpl in H; [| |done].
  { destruct (two_digit_never_loads df col v n Hcol Hv Hn Htwo) as [e He].
    rewrite He in H0. discriminate. }
  destruct (mapM _ cols) as [fmts|] eqn:Hf; simpl in H; [|done].
  destruct (set_index df cols) as [indexed|] eqn:Hi; simpl in H; [|done].
  destruct (mapM _ indexed) as [dt_vals|] eqn:Hm; simpl in H; [|done].
  injection H as <-. by exists col, v, n, fmts, indexed, dt_vals.
Qed.

Lemma strptime_valid data fmt d : strptime data fmt = Ok d -> valid_datetime d.
Proof.
  unfold strptime. destruct (parse_format _) as [its|]; simpl; [|done].
  destruct (match_items _ _ _) as [[f [|]]|]; try done.
  intros H. by apply mk_datetime_Ok in H as [? _].
Qed.

Lemma index_rest_valid df batch :
  index_rest df = Ok batch -> Forall valid_datetime (keys batch).
Proof.
  intros H.
  apply index_rest_inv in H as (col & v & n & fmts & indexed & dt_vals & H).
  destruct H as (_ & _ & _ & _ & _ & _ & Hm & ->).
  pose proof (mapM_Ok_length _ _ _ Hm) as Hlen.
  unfold keys. rewrite fst_zip by (rewrite length_fmap; lia).
  apply mapM_Ok_Forall2 in Hm. clear Hlen.
  induction Hm as [|r d indexed dt_vals Hr _ IH]; constructor; [|done].
  destruct (tuple_join r.1) as [s|]; simpl in Hr; [|done].
  by eapply strptime_valid.
Qed.

Lemma index_batch_valid df batch :
  index_batch df = Ok batch -> Forall valid_datetime (keys batch).
Proof.
  rewrite index_batch_unfold. destruct (drop_units df) as [df1|]; [|done].
  apply index_rest_valid.
Qed.

(** A successful indexing has found the four date columns in the header. *)
Lemma index_rest_columns df batch :
  index_rest df = Ok batch ->
  "#YY" ∈ columns df /\ "MM" ∈ columns df /\ "DD" ∈ columns df /\ "hh" ∈ columns df.
Proof.
  intros H.
  apply index_rest_inv in H as (col & v & n & fmts & indexed & dt_vals & H).
  destruct H as (_ & _ & _ & _ & _ & Hi & _ & _).
  unfold set_index in Hi.
  destruct (mapM _ (dt_columns df).1) as [ps|] eqn:Hps; simpl in Hi; [|done].
  apply mapM_Ok_Forall2 in Hps.
  assert (forall k, k ∈ (dt_columns df).1 -> k ∈ columns df) as Hin.
  { intros k Hk. clear Hi. induction Hps as [|k' p ks ps Hk' _ IH]; [by apply elem_of_nil in Hk|].
    apply elem_of_cons in Hk as [->|Hk]; [|by apply IH].
    destruct (col_pos k' (columns df)) as [i|] eqn:E; [|done]. by eapply col_pos_elem. }
  destruct (dt_columns_cases df) as [E|E]; rewrite E in Hin; simpl in Hin;
    repeat split; apply Hin; set_solver.
Qed.

(** ** The requests of a call *)

Lemma probe_log_app w l1 l2 : probe_log w l1 -> probe_log w l2 -> probe_log w (l1 ++ l2).
Proof.
  induction 1; intros H2; simpl;
    [done | apply probe_log_head; auto | apply probe_log_get; auto].
Qed.

Lemma probe_log_heads w urls : probe_log w (Head <$> urls).
Proof. induction urls; simpl; constructor; auto. Qed.

#[global] Instance probed_preorder w : PreOrder (probed w).
Proof.
  split.
  - intros s. exists []. rewrite app_nil_r. split; [done | constructor].
  - intros s1 s2 s3 (l1 & H1 & P1) (l2 & H2 & P2). exists (l1 ++ l2).
    rewrite H2, H1, <- app_assoc. split; [done | by apply probe_log_app].
Qed.

Lemma probed_head w s url :
  probed w s {| self := self s; net := net s ++ [Head url] |}.
Proof. exists [Head url]. split; [done | repeat constructor]. Qed.

(** What a load does to the state, in one place. *)
Lemma load_stdmet_run w url s r s' :
  load_stdmet w url s = (r, s') ->
  net s' = net s ++ [Get url]
  /\ station_id (self s') = station_id (self s)
  /\ (r = Ok tt -> stdmet (self s') = stdmet (self s) ++ fetched w url)
  /\ (r <> Ok tt -> self s' = self s).
Proof.
  rewrite load_stdmet_spec. unfold fetched.
  destruct (read_csv w url ≫= _) as [batch|e]; intros [= <- <-]; simpl;
    repeat split; try done.
Qed.

Lemma probed_load w url status_code s r s' :
  head_status w url = Ok status_code -> (status_code =? 200) = true ->
  load_stdmet w url {| self := self s; net := net s ++ [Head url] |} = (r, s') ->
  probed w s s'.
Proof.
  intros Hh Hc Hl. apply load_stdmet_run in Hl as (Hnet & _). simpl in Hnet.
  exists [Head url; Get url]. rewrite Hnet, <- app_assoc. split; [done|].
  apply probe_log_get; [|constructor]. unfold available. by rewrite Hh.
Qed.

Lemma years_loop_probed w years tu s r s' :
  years_loop w years tu s = (r, s') -> probed w s s'.
Proof.
  revert tu s. induction years as [|y years IH]; intros tu s H.
  - injection H as <- <-. reflexivity.
  - rewrite years_loop_step in H.
    destruct (station_id (self s)) as [station|]; [|injection H as <- <-; reflexivity].
    simpl in H. destruct (head_status w _) as [c|] eqn:Hh;
      [|injection H as <- <-; apply probed_head].
    destruct (c =? 200) eqn:Hc.
    + destruct (load_stdmet w _ _) as [[[]|e] s2] eqn:Hl;
        pose proof (probed_load _ _ _ _ _ _ Hh Hc Hl) as Hp.
      * etransitivity; [exact Hp | by eapply IH].
      * by injection H as <- <-.
    + etransitivity; [apply probed_head | by eapply IH].
Qed.

Lemma months_loop_probed w months tu s r s' :
  months_loop w months tu s = (r, s') -> probed w s s'.
Proof.
  revert tu s. induction months as [|m months IH]; intros tu s H.
  - injection H as <- <-. reflexivity.
  - rewrite months_loop_step in H.
    destruct (month_abbr _ _) as [a|]; [|injection H as <- <-; reflexivity].
    destruct (station_id (self s)) as [station|]; [|injection H as <- <-; reflexivity].
    simpl in H. destruct (head_status w _) as [c|] eqn:Hh;
      [|injection H as <- <-; apply probed_head].
    destruct (c =? 200) eqn:Hc.
    + destruct (load_stdmet w _ _) as [[[]|e] s2] eqn:Hl;
        pose proof (probed_load _ _ _ _ _ _ Hh Hc Hl) as Hp.
      * etransitivity; [exact Hp | by eapply IH].
      * by injection H as <- <-.
    + etransitivity; [apply probed_head | by eapply IH].
Qed.

(** ** The month the default walk stops at *)

Lemma default_walk_valid fuel w month_num my_url tu s :
  default_walk fuel w month_num true my_url tu s = (Ok (Some (my_url, tu)), s).
Proof. destruct fuel; simpl; by rewrite andb_false_r. Qed.

Lemma months_down_cons hi lo : lo <= hi -> months_down hi lo = hi :: months_down (hi - 1) lo.
Proof.
  intros H. unfold months_down.
  replace (hi - lo + 1) with ((hi - 1 - lo + 1) + 1) by lia.
  rewrite seqZ_app by lia. rewrite rev_app_distr. simpl.
  do 2 f_equal. lia.
Qed.

Lemma months_down_nil hi : months_down hi (hi + 1) = [].
Proof. unfold months_down. by replace (hi - (hi + 1) + 1) with 0 by lia. Qed.

(** A walk that ends with an address has probed the months from the one
    it started at down to the first one that answered 200, and has noted the
    months before that one. *)
Lemma default_walk_found fuel w month_num my_url tu s url tu' s' :
  default_walk fuel w month_num false my_url tu s = (Ok (Some (Some url, tu')), s') ->
  0 <= month_num \/ my_url = None ->
  exists station k month_abbrv,
    station_id (self s) = Some station
    /\ 1 <= k <= month_num
    /\ month_abbr (today_year w) k = Ok month_abbrv
    /\ url = STDMET_MONTHURL month_abbrv station
    /\ available w url = true
    /\ (forall j, k < j <= month_num ->
          exists a, month_abbr (today_year w) j = Ok a
                    /\ available w (STDMET_MONTHURL a station) = false)
    /\ tu' = tu +:+ concat_notes (walk_note w <$> months_down month_num (k + 1))
    /\ self s' = self s
    /\ net s' = net s
         ++ (Head <$> ((fun j => STDMET_MONTHURL
                                   (match month_abbr (today_year w) j with
                                    | Ok a => a | Raise _ => "" end) station)
                       <$> months_down month_num k)).
Proof.
  revert month_num my_url tu s.
  induction fuel as [|fuel IH]; intros month_num my_url tu s H Hm.
  - simpl in H. destruct (Z.geb_spec month_num 0) as [|Hneg]; simpl in H; [done|].
    injection H as -> <- <-. destruct Hm; [lia | done].
  - rewrite default_walk_step in H.
    destruct (Z.geb_spec month_num 0) as [|Hneg]; simpl in H.
    2:{ injection H as -> <- <-. destruct Hm; [lia | done]. }
    destruct (month_abbr (today_year w) month_num) as [a|] eqn:Ha; [|done].
    pose proof (month_abbr_Ok _ _ _ Ha) as Hrange.
    destruct (station_id (self s)) as [station|] eqn:Hs; [|done].
    destruct (head_status w _) as [c|] eqn:Hh; [|done].
    destruct (c =? 200) eqn:Hc.
    + rewrite default_walk_valid in H. injection H as <- <- <-.
      exists station, month_num, a. rewrite months_down_nil.
      rewrite (months_down_cons month_num month_num) by lia.
      replace (months_down (month_num - 1) month_num) with (@nil Z)
        by (symmetry; rewrite <- (months_down_nil (month_num - 1)); f_equal; lia).
      simpl. rewrite Ha. unfold available. rewrite Hh.
      repeat split; try done; try lia.
      symmetry. apply string_app_nil_r.
    + apply IH in H as (station' & k & ak & Hs' & Hk & Hak & -> & Hav & Hno & -> & Hself & Hnet);
        [|left; lia].
      simpl in Hs'. rewrite Hs in Hs'. injection Hs' as <-.
      exists station, k, ak.
      rewrite (months_down_cons month_num (k + 1)) by lia.
      rewrite (months_down_cons month_num k) by lia.
      repeat split; try done; try lia.
      * intros j Hj. destruct (Z.eq_dec j month_num) as [->|Hne].
        -- exists a. split; [done|]. unfold available. by rewrite Hh.
        -- apply Hno. lia.
      * change (walk_note w <$> month_num :: ?l) with (walk_note w month_num :: (walk_note w <$> l)).
        change (concat_notes (?x :: ?l)) with (x +:+ concat_notes l).
        unfold walk_note at 2. rewrite Ha. by rewrite !string_app_assoc.
      * rewrite Hnet. simpl. rewrite Ha, <- app_assoc. done.
Qed.

(** ** The rows of an explicit request *)

Lemma years_loop_rows w station years tu s tu' s' :
  station_id (self s) = Some station ->
  years_loop w years tu s = (Ok tu', s') ->
  stdmet (self s') = stdmet (self s) ++ concat (year_rows w station <$> years).
Proof.
  revert tu s. induction years as [|y years IH]; intros tu s Hs H.
  - injection H as <- <-. simpl. by rewrite app_nil_r.
  - rewrite years_loop_step, Hs in H. simpl in H.
    change (year_rows w station <$> y :: years)
      with (year_rows w station y :: (year_rows w station <$> years)).
    simpl concat. unfold year_rows at 1, available.
    destruct (head_status w _) as [c|]; [|done].
    destruct (c =? 200).
    + destruct (load_stdmet w _ _) as [[[]|] s2] eqn:Hl; [|done].
      apply load_stdmet_run in Hl as (_ & Hst & Hrows & _). simpl in Hst, Hrows.
      apply IH in H; [|congruence]. rewrite H, Hrows by done. by rewrite <- app_assoc.
    + apply IH in H; [|done]. by rewrite H.
Qed.

Lemma months_loop_rows w station months tu s tu' s' :
  station_id (self s) = Some station ->
  months_loop w months tu s = (Ok tu', s') ->
  stdmet (self s') = stdmet (self s) ++ concat (month_rows w station <$> months)
  /\ Forall (fun m => exists a, month_abbr (today_year w) m = Ok a) months.
Proof.
  revert tu s. induction months as [|m months IH]; intros tu s Hs H.
  - injection H as <- <-. simpl. by rewrite app_nil_r.
  - rewrite months_loop_step in H.
    change (month_rows w station <$> m :: months)
      with (month_rows w station m :: (month_rows w station <$> months)).
    simpl concat. unfold month_rows at 1, available.
    destruct (month_abbr _ _) as [a|] eqn:Ha; [|done].
    rewrite Hs in H. simpl in H.
    destruct (head_status w _) as [c|]; [|done].
    destruct (c =? 200).
    + destruct (load_stdmet w _ _) as [[[]|] s2] eqn:Hl; [|done].
      apply load_stdmet_run in Hl as (_ & Hst & Hrows & _). simpl in Hst, Hrows.
      apply IH in H as [H ?]; [|congruence]. split; [|constructor; eauto].
      rewrite H, Hrows by done. by rewrite <- app_assoc.
    + apply IH in H as [H ?]; [|done]. split; [|constructor; eauto]. by rewrite H.
Qed.

(** A call for explicit periods that returns has read [station_id]. *)
Lemma get_stdmet_explicit_station fuel w years months s r s' :
  years <> [] \/ months <> [] ->
  get_stdmet fuel w years months s = (Ok r, s') ->
  exists station, station_id (self s) = Some station.
Proof.
  intros Hne H. destruct (station_id (self s)) as [station|] eqn:Hs; [by eexists|].
  rewrite get_stdmet_explicit in H by done. destruct years as [|y years].
  - destruct months as [|m months]; [by destruct Hne|].
    simpl years_loop in H. unfold mret, M_ret in H. rewrite months_loop_step in H.
    destruct (month_abbr _ _); [|done]. by rewrite Hs in H.
  - by rewrite years_loop_step, Hs in H.
Qed.

(** ** Months out of range *)

Lemma month_abbr_out_of_range y m :
  ~ 1 <= m <= 12 -> month_abbr y m = Raise (month_error y m).
Proof.
  intros Hm. unfold month_abbr, mk_datetime, month_error.
  change (fits_c_int 1) with true. change (fits_c_int 0) with true.
  rewrite !andb_true_r.
  destruct (fits_c_int y && fits_c_int m); simpl; [|done].
  destruct (_ && _) eqn:E; [|done].
  exfalso. repeat (apply andb_prop in E as [E ?]). lia.
Qed.

(** ** Timestamps without a minute column *)

Lemma first_success_Some {A B} (k : A -> option B) l b :
  first_success k l = Some b -> exists a, a ∈ l /\ k a = Some b.
Proof.
  induction l as [|a l IH]; simpl; [done|].
  destruct (k a) as [b'|] eqn:Ha.
  - intros [= <-]. exists a. split; [by left | done].
  - intros H. apply IH in H as (a' & ? & ?). exists a'. split; [by right | done].
Qed.

Lemma candidates_minute it s f c :
  it <> FM -> c ∈ candidates it s f -> f_M c.1 = f_M f.
Proof.
  intros Hit Hc. destruct it; try done; simpl in Hc;
    try (apply list_elem_of_fmap in Hc as ([v s'] & -> & _); done).
  - apply list_elem_of_fmap in Hc as (s' & -> & _). done.
  - destruct s as [|b s']; [by apply elem_of_nil in Hc|].
    destruct (Ascii.eqb a b); [|by apply elem_of_nil in Hc].
    by apply list_elem_of_singleton in Hc as ->.
Qed.

Lemma match_items_minute its s f f' rest :
  FM ∉ its -> match_items its s f = Some (f', rest) -> f_M f' = f_M f.
Proof.
  revert s f. induction its as [|it its IH]; intros s f Hits H; simpl in H.
  - by injection H as <- _.
  - apply not_elem_of_cons in Hits as [Hit Hits].
    apply first_success_Some in H as (c & Hc & H).
    apply IH in H; [|done]. rewrite H. by eapply candidates_minute.
Qed.

Lemma strptime_hour_format data d :
  strptime data "%Y %m %d %H" = Ok d -> minute d = 0.
Proof.
  unfold strptime.
  change (parse_format (list_ascii_of_string "%Y %m %d %H"))
    with (Ok [FY; FSpace; Fm; FSpace; Fd; FSpace; FH]).
  unfold mbind, result_bind.
  change (collapse [FY; FSpace; Fm; FSpace; Fd; FSpace; FH])
    with [FY; FSpace; Fm; FSpace; Fd; FSpace; FH].
  destruct (match_items _ _ _) as [[f [|]]|] eqn:Hm; try done.
  apply match_items_minute in Hm.
  2:{ intros Hin. repeat (apply elem_of_cons in Hin as [?|Hin]; [done|]).
      by apply elem_of_nil in Hin. }
  intros H. apply mk_datetime_Ok in H as [_ ->]. done.
Qed.

Lemma index_rest_hourly df batch :
  "mm" ∉ columns df -> index_rest df = Ok batch ->
  Forall (fun d => minute d = 0) (keys batch).
Proof.
  intros Hmm H.
  apply index_rest_inv in H as (col & v & n & fmts & indexed & dt_vals & H).
  destruct H as (_ & _ & _ & _ & Hf & _ & Hm & ->).
  assert (fmts = ["%Y"; "%m"; "%d"; "%H"]) as ->.
  { unfold dt_columns in Hf. rewrite bool_decide_eq_false_2 in Hf by done.
    vm_compute in Hf. by injection Hf as <-. }
  pose proof (mapM_Ok_length _ _ _ Hm) as Hlen.
  unfold keys. rewrite fst_zip by (rewrite length_fmap; lia).
  apply mapM_Ok_Forall2 in Hm. clear Hlen.
  induction Hm as [|r d indexed dt_vals Hr _ IH]; constructor; [|done].
  destruct (tuple_join r.1) as [s|]; simpl in Hr; [|done].
  by apply strptime_hour_format in Hr.
Qed.

(** ** Addresses *)

Lemma string_app_length (a b : string) :
  String.length (a +:+ b) = (String.length a + String.length b)%nat.
Proof.
  induction a as [|x a IH]; [done|].
  change (S (String.length (a +:+ b)) = S (String.length a + String.length b)).
  by f_equal.
Qed.

Lemma string_app_inj_r (a b c : string) : a +:+ c = b +:+ c -> a = b.
Proof.
  revert b. induction a as [|x a IH]; intros [|y b] H; [done| | |].
  - apply (f_equal String.length) in H.
    change (String.length c = S (String.length (b +:+ c))) in H.
    rewrite string_app_length in H. lia.
  - apply (f_equal String.length) in H.
    change (S (String.length (a +:+ c)) = String.length c) in H.
    rewrite string_app_length in H. lia.
  - change (String x (a +:+ c) = String y (b +:+ c)) in H.
    injection H as -> H. f_equal. by apply IH.
Qed.

Lemma str_of_Z_inj z1 z2 : str_of_Z z1 = str_of_Z z2 -> z1 = z2.
Proof.
  unfold str_of_Z. intros H.
  assert (forall z, NilZero.int_of_string (NilZero.string_of_int (Z.to_int z))
                    = Some (Z.to_int z)) as Hisi.
  { intros z. apply NilZero.isi; destruct z; simpl; try done;
      intros [= E]; by apply DecimalPos.Unsigned.to_uint_nonnil in E. }
  apply (f_equal NilZero.int_of_string) in H. rewrite !Hisi in H.
  injection H as H. apply (f_equal Z.of_int) in H.
  by rewrite !DecimalZ.of_to in H.
Qed.

Lemma month_abbr_inj y m1 m2 a :
  month_abbr y m1 = Ok a -> month_abbr y m2 = Ok a -> m1 = m2.
Proof.
  intros H1 H2.
  pose proof (month_abbr_Ok _ _ _ H1). pose proof (month_abbr_Ok _ _ _ H2).
  unfold month_abbr in H1, H2.
  destruct (mk_datetime y m1 1 0 0) as [d1|] eqn:E1; simpl in H1; [|done].
  destruct (mk_datetime y m2 1 0 0) as [d2|] eqn:E2; simpl in H2; [|done].
  apply mk_datetime_Ok in E1 as [_ ->]. apply mk_datetime_Ok in E2 as [_ ->].
  simpl in H1, H2.
  destruct (_ !! Z.to_nat (m1 - 1)) as [a1|] eqn:L1; simpl in H1; [|done].
  destruct (_ !! Z.to_nat (m2 - 1)) as [a2|] eqn:L2; simpl in H2; [|done].
  injection H1 as ->. injection H2 as ->.
  assert (Z.to_nat (m1 - 1) = Z.to_nat (m2 - 1)); [|lia].
  eapply NoDup_lookup; [|exact L1|exact L2].
  apply (bool_decide_unpack _). vm_compute. exact I.
Qed.

(** ** Payloads too short to load *)

Lemma index_batch_two_rows header body batch :
  index_batch (mk_frame header body) = Ok batch -> (2 <= length body)%nat.
Proof.
  intros H. destruct body as [|r0 [|r1 body]]; [done| |simpl; lia].
  exfalso. rewrite index_batch_unfold in H.
  destruct (drop_units _) as [df1|] eqn:Hd; [|done]. simpl in H.
  assert (rows df1 = [(0, r0)] \/ rows df1 = []) as Hrows.
  { unfold drop_units, df_loc, row_first in Hd. simpl in Hd.
    destruct header; [done|]. simpl in Hd.
    destruct (first_char _) as [a|]; [|done]. simpl in Hd. injection Hd as <-.
    destruct (Ascii.eqb a "#"); simpl; auto. }
  apply index_rest_inv in H as (col & v & n & fmts & indexed & dt_vals & Hcol & Hv & _).
  unfold df_col in Hcol. destruct (col_pos _ _) as [i|]; [|done].
  simpl in Hcol. injection Hcol as <-.
  destruct Hrows as [E|E]; rewrite E in Hv; done.
Qed.

(** ** The requests of the default walk *)

Lemma months_down_snoc hi lo : lo <= hi -> months_down hi lo = months_down hi (lo + 1) ++ [lo].
Proof.
  intros H. unfold months_down.
  replace (hi - lo + 1) with (Z.succ (hi - (lo + 1) + 1)) by lia.
  rewrite seqZ_cons by lia. simpl. do 3 f_equal; lia.
Qed.

Lemma default_walk_heads fuel w month_num valid my_url tu s r s' :
  default_walk fuel w month_num valid my_url tu s = (r, s') ->
  exists urls, net s' = net s ++ (Head <$> urls).
Proof.
  revert month_num valid my_url tu s.
  induction fuel as [|fuel IH]; intros month_num valid my_url tu s H.
  - exists []. simpl in H. rewrite app_nil_r.
    by destruct (_ && _); injection H as <- <-.
  - rewrite default_walk_step in H.
    destruct (_ && _); [|exists []; rewrite app_nil_r; by injection H as <- <-].
    destruct (month_abbr _ _) as [a|];
      [|exists []; rewrite app_nil_r; by injection H as <- <-].
    destruct (station_id _) as [station|];
      [|exists []; rewrite app_nil_r; by injection H as <- <-].
    simpl in H. destruct (head_status w _) as [c|].
    + apply IH in H as [urls Hnet]. exists (STDMET_MONTHURL a station :: urls).
      simpl in *. by rewrite Hnet, <- app_assoc.
    + exists [STDMET_MONTHURL a station]. by injection H as <- <-.
Qed.

Lemma get_stdmet_probed fuel w years months s : probed w s (get_stdmet fuel w years months s).2.
Proof.
  assert (years <> [] \/ months <> [] -> probed w s (get_stdmet fuel w years months s).2) as He.
  { intros Hne. rewrite get_stdmet_explicit by done.
    destruct (years_loop w years "" s) as [[tu|] s1] eqn:Hy;
      apply years_loop_probed in Hy; [|done].
    destruct (months_loop w months tu s1) as [[tu'|] s2] eqn:Hm;
      apply months_loop_probed in Hm; simpl; by etransitivity. }
  destruct years as [|y years]; [|apply He; by left].
  destruct months as [|m months]; [|apply He; by right].
  rewrite get_stdmet_default.
  destruct (default_walk fuel w (today_month w) false None "" s) as [r1 s1] eqn:Hw.
  assert (probed w s s1) as Hs1.
  { apply default_walk_heads in Hw as [urls Hnet].
    exists (Head <$> urls). split; [done | apply probe_log_heads]. }
  destruct r1 as [[[[url|] tu]|]|e]; try done.
  apply default_walk_found in Hw; [|by right].
  destruct Hw as (station & k & a & _ & Hk & Hak & Hurl & Hav & _ & _ & _ & Hnet).
  rewrite months_down_snoc in Hnet by lia. rewrite !fmap_app in Hnet.
  assert (probed w s (load_stdmet w url s1).2); [|by destruct (load_stdmet w url s1) as [[[]|] s2]].
  destruct (load_stdmet w url s1) as [r2 s2] eqn:Hl.
  apply load_stdmet_run in Hl as (Hnet2 & _). simpl.
  eexists. rewrite Hnet2, Hnet, <- !app_assoc. split; [reflexivity|].
  apply probe_log_app; [apply probe_log_heads|]. simpl.
  rewrite Hak, <- Hurl. apply probe_log_get; [done | constructor].
Qed.

(** ** Month names on a real date *)

Lemma month_abbr_Ok_year y m a : month_abbr y m = Ok a -> 1 <= y <= 9999.
Proof.
  unfold month_abbr. destruct (mk_datetime y m 1 0 0) as [d|] eqn:E; [|done].
  intros _. apply mk_datetime_Ok in E as [(Hy & _) ->]. exact Hy.
Qed.

Lemma month_abbr_Some y m :
  1 <= y <= 9999 -> 1 <= m <= 12 -> exists a, month_abbr y m = Ok a.
Proof.
  intros Hy Hm. unfold month_abbr, mk_datetime.
  assert (28 <= days_in_month y m)
    by (unfold days_in_month; repeat case_match; lia).
  replace (fits_c_int y) with true by (symmetry; apply fits_c_int_spec; lia).
  replace (fits_c_int m) with true by (symmetry; apply fits_c_int_spec; lia).
  change (fits_c_int 1) with true. change (fits_c_int 0) with true.
  cbn [andb negb].
  destruct (_ && _) eqn:E.
  - simpl. destruct (_ !! Z.to_nat (m - 1)) as [a|] eqn:L; [by exists a|].
    apply lookup_ge_None in L. simpl in L. lia.
  - exfalso. repeat (apply andb_false_iff in E as [E|E]); lia.
Qed.

(** ** The whole of a call that returns *)

Lemma get_stdmet_explicit_inv fuel w years months s r s' :
  years <> [] \/ months <> [] ->
  get_stdmet fuel w years months s = (Ok r, s') ->
  exists station,
    station_id (self s) = Some station
    /\ r = Some (returned (advisory w station years months))
    /\ stdmet (self s')
       = stdmet (self s) ++ concat (year_rows w station <$> years)
                         ++ concat (month_rows w station <$> months)
    /\ Forall (fun m => exists a, month_abbr (today_year w) m = Ok a) months.
Proof.
  intros Hne H.
  destruct (get_stdmet_explicit_station _ _ _ _ _ _ _ Hne H) as [station Hs].
  exists station. split; [done|].
  split; [by eapply get_stdmet_explicit_Ok|].
  rewrite get_stdmet_explicit in H by done.
  destruct (years_loop w years "" s) as [[tu|] s1] eqn:Hy; [|done].
  pose proof (years_loop_rows _ _ _ _ _ _ _ Hs Hy) as Hr1.
  apply years_loop_Ok with (station := station) in Hy as [_ Hs1]; [|done].
  destruct (months_loop w months tu s1) as [[tu'|] s2] eqn:Hm; [|done].
  apply months_loop_rows with (station := station) in Hm as [Hr2 Hok]; [|done].
  injection H as _ <-. split; [|done]. by rewrite Hr2, Hr1, <- app_assoc.
Qed.

Lemma get_stdmet_default_inv fuel w s r s' :
  get_stdmet fuel w [] [] s = (Ok (Some r), s') ->
  exists station k month_abbrv,
    station_id (self s) = Some station
    /\ 1 <= k <= today_month w
    /\ month_abbr (today_year w) k = Ok month_abbrv
    /\ available w (STDMET_MONTHURL month_abbrv station) = true
    /\ (forall j, k < j <= today_month w ->
          exists a, month_abbr (today_year w) j = Ok a
                    /\ available w (STDMET_MONTHURL a station) = false)
    /\ stdmet (self s') = stdmet (self s) ++ fetched w (STDMET_MONTHURL month_abbrv station)
    /\ r = returned (concat_notes (walk_note w <$> months_down (today_month w) (k + 1))).
Proof.
  intros H. rewrite get_stdmet_default in H.
  destruct (default_walk fuel w (today_month w) false None "" s)
    as [[[[[url|] tu]|]|e] s1] eqn:Hw; try done.
  apply default_walk_found in Hw; [|by right].
  destruct Hw as (station & k & a & Hs & Hk & Hak & -> & Hav & Hno & -> & Hself & _).
  destruct (load_stdmet w _ s1) as [[[]|] s2] eqn:Hl; [|done].
  apply load_stdmet_run in Hl as (_ & _ & Hrows & _).
  injection H as <- <-. exists station, k, a.
  rewrite Hrows, Hself by done. repeat split; try done; lia.
Qed.

#[global] Instance keys_stay_valid_preorder : PreOrder keys_stay_valid.
Proof.
  split.
  - intros s H. exact H.
  - intros s1 s2 s3 H1 H2 H. by apply H2, H1.
Qed.

Lemma load_stdmet_valid_keys w url : keeps keys_stay_valid (load_stdmet w url).
Proof.
  intros s r s' H Hv. rewrite load_stdmet_spec in H. unfold valid_keys in *.
  destruct (read_csv w url) as [p|]; simpl in H; [|by injection H as <- <-].
  destruct (index_batch _) as [batch|] eqn:Hb; injection H as <- <-; [|done].
  simpl. unfold keys in *. rewrite fmap_app. apply Forall_app. split; [done|].
  by apply index_batch_valid in Hb.
Qed.

(** ** The log of an explicit request that returns *)

Lemma years_loop_net w station years tu s tu' s' :
  station_id (self s) = Some station ->
  years_loop w years tu s = (Ok tu', s') ->
  net s' = net s ++ concat (year_requests w station <$> years).
Proof.
  revert tu s. induction years as [|y years IH]; intros tu s Hs H.
  - injection H as <- <-. simpl. by rewrite app_nil_r.
  - rewrite years_loop_step, Hs in H. simpl in H.
    change (year_requests w station <$> y :: years)
      with (year_requests w station y :: (year_requests w station <$> years)).
    simpl concat. unfold year_requests at 1, available.
    destruct (head_status w _) as [c|]; [|done].
    destruct (c =? 200).
    + destruct (load_stdmet w _ _) as [[[]|] s2] eqn:Hl; [|done].
      apply load_stdmet_run in Hl as (Hnet & Hst & _). simpl in Hst, Hnet.
      apply IH in H; [|congruence]. rewrite H, Hnet. by rewrite <- !app_assoc.
    + apply IH in H; [|done]. rewrite H. simpl. by rewrite <- app_assoc.
Qed.

Lemma months_loop_net w station months tu s tu' s' :
  station_id (self s) = Some station ->
  months_loop w months tu s = (Ok tu', s') ->
  net s' = net s ++ concat (month_requests w station <$> months).
Proof.
  revert tu s. induction months as [|m months IH]; intros tu s Hs H.
  - injection H as <- <-. simpl. by rewrite app_nil_r.
  - rewrite months_loop_step in H.
    change (month_requests w station <$> m :: months)
      with (month_requests w station m :: (month_requests w station <$> months)).
    simpl concat. unfold month_requests at 1, available.
    destruct (month_abbr _ _) as [a|] eqn:Ha; [|done].
    rewrite Hs in H. simpl in H.
    destruct (head_status w _) as [c|]; [|done].
    destruct (c =? 200).
    + destruct (load_stdmet w _ _) as [[[]|] s2] eqn:Hl; [|done].
      apply load_stdmet_run in Hl as (Hnet & Hst & _). simpl in Hst, Hnet.
      apply IH in H; [|congruence]. rewrite H, Hnet. by rewrite <- !app_assoc.
    + apply IH in H; [|done]. rewrite H. simpl. by rewrite <- app_assoc.
Qed.

(** ** A walk that finds no month *)

Lemma default_walk_exhausted fuel w month_num my_url tu s station :
  station_id (self s) = Some station ->
  1 <= today_year w <= 9999 ->
  0 <= month_num <= 12 ->
  (Z.to_nat month_num < fuel)%nat ->
  (forall j, 1 <= j <= month_num ->
     exists c, head_status w (walk_url w station j) = Ok c /\ (c =? 200) = false) ->
  default_walk fuel w month_num false my_url tu s
  = (Raise ValueError,
     {| self := self s;
        net := net s ++ (Head <$> (walk_url w station <$> months_down month_num 1)) |}).
Proof.
  intros Hs Hy. revert month_num my_url tu s Hs.
  induction fuel as [|fuel IH]; intros month_num my_url tu s Hs Hm Hfuel Hno; [lia|].
  rewrite default_walk_step.
  destruct (Z.geb_spec month_num 0); [|lia]. simpl.
  destruct (Z.eq_dec month_num 0) as [->|Hne].
  - rewrite month_abbr_out_of_range by lia.
    replace (month_error (today_year w) 0) with ValueError.
    2:{ unfold month_error.
        replace (fits_c_int (today_year w)) with true; [done|].
        symmetry. apply fits_c_int_spec. lia. }
    replace (months_down 0 1) with (@nil Z) by (symmetry; apply (months_down_nil 0)).
    simpl. rewrite app_nil_r. by destruct s.
  - destruct (month_abbr_Some (today_year w) month_num) as [a Ha]; [done | lia |].
    rewrite Ha, Hs.
    destruct (Hno month_num) as (c & Hc & Hc200); [lia|].
    unfold walk_url in Hc. rewrite Ha in Hc. simpl. rewrite Hc, Hc200.
    rewrite IH; try done; try lia.
    + simpl. rewrite (months_down_cons month_num 1) by lia. simpl.
      unfold walk_url at 2. rewrite Ha, <- app_assoc. done.
    + intros j Hj. apply Hno. lia.
Qed.

(** ** Probes whose transport fails

    Nothing in the module catches an exception: when the transport of a
    probe fails, what it raised is what the loop, and the call, raise, and
    nothing is requested afterwards. *)

Lemma failure_raised_refl {A} w s (r : result A) : failure_raised w s r s.
Proof.
  exists []. rewrite app_nil_r. split; [done|].
  intros url e H. by apply elem_of_nil in H.
Qed.

Lemma failure_raised_step {A B} w s (a : A) s1 (r : result B) s2 :
  failure_raised w s (Ok a) s1 -> failure_raised w s1 r s2 -> failure_raised w s r s2.
Proof.
  intros (l1 & H1 & F1) (l2 & H2 & F2). exists (l1 ++ l2).
  split; [by rewrite H2, H1, app_assoc|].
  intros url e Hin Hf. apply elem_of_app in Hin as [Hin|Hin].
  - by destruct (F1 url e Hin Hf) as [? _].
  - destruct (F2 url e Hin Hf) as [-> Hl]. split; [done|].
    by rewrite last_app, Hl.
Qed.

Lemma failure_raised_cast {A B} w s e s' :
  failure_raised w s (@Raise A e) s' -> failure_raised w s (@Raise B e) s'.
Proof.
  intros (l & H & F). exists l. split; [done|].
  intros url e' Hin Hf. by destruct (F url e' Hin Hf) as [[= ->] ?].
Qed.

Lemma failure_raised_head w url s :
  failure_raised w s (head_status w url) {| self := self s; net := net s ++ [Head url] |}.
Proof.
  exists [Head url]. split; [done|].
  intros u e Hin Hf. apply list_elem_of_singleton in Hin as [= ->]. by rewrite Hf.
Qed.

Lemma failure_raised_load w url s r s' :
  load_stdmet w url s = (r, s') -> failure_raised w s r s'.
Proof.
  intros H. apply load_stdmet_run in H as [Hnet _].
  exists [Get url]. split; [done|].
  intros u e Hin _. by apply list_elem_of_singleton in Hin.
Qed.

Lemma years_loop_failure w years tu s r s' :
  years_loop w years tu s = (r, s') -> failure_raised w s r s'.
Proof.
  revert tu s. induction years as [|y years IH]; intros tu s H.
  - injection H as <- <-. apply failure_raised_refl.
  - rewrite years_loop_step in H.
    destruct (station_id (self s)) as [station|];
      [|injection H as <- <-; apply failure_raised_refl].
    simpl in H.
    pose proof (failure_raised_head w (STDMET_YEARURL station (str_of_Z y)) s) as Hh.
    destruct (head_status w _) as [c|e];
      [|injection H as <- <-; by apply (failure_raised_cast (A:=Z))].
    destruct (c =? 200).
    + destruct (load_stdmet w _ _) as [[[]|e] s2] eqn:Hl;
        apply failure_raised_load in Hl.
      * eapply failure_raised_step; [exact Hh|].
        eapply failure_raised_step; [exact Hl | by eapply IH].
      * injection H as <- <-. eapply failure_raised_step; [exact Hh|].
        by apply (failure_raised_cast (A:=unit)).
    + eapply failure_raised_step; [exact Hh | by eapply IH].
Qed.

Lemma months_loop_failure w months tu s r s' :
  months_loop w months tu s = (r, s') -> failure_raised w s r s'.
Proof.
  revert tu s. induction months as [|m months IH]; intros tu s H.
  - injection H as <- <-. apply failure_raised_refl.
  - rewrite months_loop_step in H.
    destruct (month_abbr _ _) as [a|];
      [|injection H as <- <-; apply failure_raised_refl].
    destruct (station_id (self s)) as [station|];
      [|injection H as <- <-; apply failure_raised_refl].
    simpl in H.
    pose proof (failure_raised_head w (STDMET_MONTHURL a station) s) as Hh.
    destruct (head_status w _) as [c|e];
      [|injection H as <- <-; by apply (failure_raised_cast (A:=Z))].
    destruct (c =? 200).
    + destruct (load_stdmet w _ _) as [[[]|e] s2] eqn:Hl;
        apply failure_raised_load in Hl.
      * eapply failure_raised_step; [exact Hh|].
        eapply failure_raised_step; [exact Hl | by eapply IH].
      * injection H as <- <-. eapply failure_raised_step; [exact Hh|].
        by apply (failure_raised_cast (A:=unit)).
    + eapply failure_raised_step; [exact Hh | by eapply IH].
Qed.

Lemma default_walk_failure fuel w month_num valid my_url tu s r s' :
  default_walk fuel w month_num valid my_url tu s = (r, s') -> failure_raised w s r s'.
Proof.
  revert month_num valid my_url tu s.
  induction fuel as [|fuel IH]; intros month_num valid my_url tu s H.
  - simpl in H. destruct (_ && _); injection H as <- <-; apply failure_raised_refl.
  - rewrite default_walk_step in H.
    destruct (_ && _); [|injection H as <- <-; apply failure_raised_refl].
    destruct (month_abbr _ _) as [a|];
      [|injection H as <- <-; apply failure_raised_refl].
    destruct (station_id (self s)) as [station|];
      [|injection H as <- <-; apply failure_raised_refl].
    simpl in H.
    pose proof (failure_raised_head w (STDMET_MONTHURL a station) s) as Hh.
    destruct (head_status w _) as [c|e];
      [|injection H as <- <-; by apply (failure_raised_cast (A:=Z))].
    eapply failure_raised_step; [exact Hh | by eapply IH].
Qed.

Lemma get_stdmet_failure fuel w years months s r s' :
  get_stdmet fuel w years months s = (r, s') -> failure_raised w s r s'.
Proof.
  intros H.
  assert ((years = [] /\ months = []) \/ (years <> [] \/ months <> [])) as [[-> ->]|Hne]
    by (destruct years, months; auto).
  - rewrite get_stdmet_default in H.
    destruct (default_walk fuel w (today_month w) false None "" s)
      as [[[[[url|] tu]|]|e] s1] eqn:Hw; apply default_walk_failure in Hw.
    + destruct (load_stdmet w url s1) as [[[]|e] s2] eqn:Hl;
        apply failure_raised_load in Hl; injection H as <- <-.
      * eapply failure_raised_step; [exact Hw|].
        destruct Hl as (l & Hl & F). exists l. split; [done|].
        intros u e Hin Hf. by destruct (F u e Hin Hf).
      * eapply failure_raised_step; [exact Hw|].
        by apply (failure_raised_cast (A:=unit)).
    + injection H as <- <-. destruct Hw as (l & Hl & F). exists l. split; [done|].
      intros u e Hin Hf. by destruct (F u e Hin Hf).
    + injection H as <- <-. destruct Hw as (l & Hl & F). exists l. split; [done|].
      intros u e Hin Hf. by destruct (F u e Hin Hf).
    + injection H as <- <-. by eapply failure_raised_cast.
  - rewrite get_stdmet_explicit in H by done.
    destruct (years_loop w years "" s) as [[tu|e] s1] eqn:Hy;
      apply years_loop_failure in Hy.
    + destruct (months_loop w months tu s1) as [[tu'|e] s2] eqn:Hm;
        apply months_loop_failure in Hm; injection H as <- <-.
      * eapply failure_raised_step; [exact Hy|].
        destruct Hm as (l & Hl & F). exists l. split; [done|].
        intros u e Hin Hf. by destruct (F u e Hin Hf).
      * eapply failure_raised_step; [exact Hy|]. by eapply failure_raised_cast.
    + injection H as <- <-. by eapply failure_raised_cast.
Qed.

(** ** The values of an indexed row *)

Lemma row_values_names header keys r :
  (row_values header keys r).*1 = filter (fun c => c ∉ keys) header.
Proof.
  unfold row_values, value_columns.
  change (imap (fun i c => (i, c)) header)
    with (imap (fun i c => ((fun i : nat => i) i, c)) header).
  generalize (fun i : nat => i) as f.
  induction header as [|c header IH]; intros f; [done|].
  rewrite imap_cons. simpl. rewrite filter_cons.
  destruct (decide (c ∉ keys)) as [Hc|Hc].
  - rewrite bool_decide_eq_false_2 by done. simpl. f_equal. apply (IH (f ∘ S)).
  - rewrite bool_decide_eq_true_2 by (by apply dec_stable). simpl.
    apply (IH (f ∘ S)).
Qed.

Lemma row_values_elem header keys r i c :
  header !! i = Some c -> c ∉ keys -> (c, cell_at r i) ∈ row_values header keys r.
Proof.
  intros Hi Hc. unfold row_values, value_columns.
  apply (list_elem_of_fmap_2' _ _ (i, c)); [|done].
  apply list_elem_of_In, filter_In. simpl. split.
  - apply list_elem_of_In, list_elem_of_lookup. exists i.
    by rewrite list_lookup_imap, Hi.
  - by rewrite bool_decide_eq_false_2.
Qed.

Lemma dt_columns_mk_frame header body :
  (dt_columns (mk_frame header body)).1
  = ["#YY"; "MM"; "DD"; "hh"] ++ (if bool_decide ("mm" ∈ header) then ["mm"] else []).
Proof. unfold dt_columns. simpl. by destruct (bool_decide _). Qed.

Lemma Forall2_zip_fmap {A B C} (P : A -> C * B -> Prop) (f : A -> B) l (ks : list C) :
  length ks = length l ->
  (forall a k, P a (k, f a)) ->
  Forall2 P l (zip ks (f <$> l)).
Proof.
  intros Hlen HP. revert ks Hlen.
  induction l as [|a l IH]; intros [|k ks] Hlen; try done; simpl.
  constructor; [apply HP | apply IH; simpl in Hlen; lia].
Qed.

(** ** The requests of the default search *)

Lemma months_down_length hi lo : lo <= hi + 1 -> length (months_down hi lo) = Z.to_nat (hi - lo + 1).
Proof. intros H. unfold months_down. by rewrite length_rev, length_seqZ. Qed.

(** The default search probes at most as many addresses as the number of
    the current month; when it downloads, it downloads once, the address it
    probed last, and that is its last request. *)
Lemma get_stdmet_default_requests fuel w s r s' :
  (Z.to_nat (today_month w + 1) <= fuel)%nat ->
  get_stdmet fuel w [] [] s = (r, s') ->
  exists urls rest,
    net s' = net s ++ (Head <$> urls) ++ rest
    /\ (length urls <= Z.to_nat (today_month w))%nat
    /\ (rest = [] \/ exists url, rest = [Get url] /\ last urls = Some url).
Proof.
  intros Hfuel H. rewrite get_stdmet_default in H.
  destruct (default_walk fuel w (today_month w) false None "" s) as [r1 s1] eqn:Hw.
  pose proof Hw as Hb.
  apply default_walk_bounded in Hb as (_ & _ & urls & Hnet & Hlen); [|done].
  assert (s' = s1 -> exists urls rest,
    net s' = net s ++ (Head <$> urls) ++ rest
    /\ (length urls <= Z.to_nat (today_month w))%nat
    /\ (rest = [] \/ exists url, rest = [Get url] /\ last urls = Some url)) as Hstay.
  { intros ->. exists urls, []. rewrite app_nil_r. auto. }
  destruct r1 as [[[[url|] tu]|]|e]; try (injection H as _ <-; by apply Hstay).
  clear Hstay urls Hnet Hlen.
  apply default_walk_found in Hw as (station & k & a & _ & Hk & Ha & Hurl & _ & _ & _ & _ & Hnet);
    [|by right].
  rewrite load_stdmet_spec in H.
  exists ((fun j => STDMET_MONTHURL
                      (match month_abbr (today_year w) j with Ok a => a | Raise _ => "" end)
                      station) <$> months_down (today_month w) k), [Get url].
  split; [|split].
  - destruct (read_csv w url ≫= _); injection H as _ <-; simpl;
      by rewrite Hnet, <- app_assoc.
  - rewrite length_fmap, months_down_length by lia. lia.
  - right. exists url. split; [done|].
    rewrite (months_down_snoc _ k) by lia. rewrite fmap_app. cbn [fmap list_fmap].
    by rewrite last_snoc, Ha, Hurl.
Qed.

(** * The claims *)

(** ** C1: merging a batch into the table *)

(** C1 as stated does not hold: the 2018 file loaded twice.  Both loads
    succeed; the two batches have the same two timestamps, so the union of
    the key sets has two elements, but the table has four rows and its keys
    repeat. *)
Lemma C1_overlap_keeps_duplicates :
  load_stdmet world_march url_2018 session_new = (Ok tt, session_once)
  /\ load_stdmet world_march url_2018 session_once = (Ok tt, session_twice)
  /\ stdmet (self session_once) = batch_2018
  /\ stdmet (self session_twice) = batch_2018 ++ batch_2018
  /\ size (key_set batch_2018 ∪ key_set batch_2018) = 2%nat
  /\ length (stdmet (self session_twice)) = 4%nat
  /\ ~ NoDup (keys (stdmet (self session_twice))).
Proof.
  repeat split; try (vm_compute; reflexivity).
  apply (proj1 (bool_decide_eq_false _)). vm_compute. reflexivity.
Qed.

(** C1, amended.  A successful load appends the indexed batch to the
    table: the new size is the sum of the two sizes whether or not
    timestamps overlap, and the keys of the result are unique exactly when
    those of the table and of the batch were unique and disjoint. *)
Theorem C1_merge_appends w url s s' :
  load_stdmet w url s = (Ok tt, s') ->
  exists batch,
    read_csv w url ≫= (fun p => index_batch (mk_frame p.1 p.2)) = Ok batch
    /\ stdmet (self s') = stdmet (self s) ++ batch
    /\ length (stdmet (self s')) = (length (stdmet (self s)) + length batch)%nat
    /\ (NoDup (keys (stdmet (self s'))) <->
        NoDup (keys (stdmet (self s))) /\ NoDup (keys batch)
        /\ forall k, k ∈ keys (stdmet (self s)) -> k ∉ keys batch).
Proof.
  rewrite load_stdmet_spec.
  destruct (read_csv w url ≫= _) as [batch|e]; intros [= <-]; exists batch.
  simpl. split; [done|]. split; [done|]. split; [apply length_app|].
  unfold keys. rewrite fmap_app, NoDup_app. tauto.
Qed.

Lemma C1_merge_appends_witness :
  load_stdmet world_march url_2018 session_once = (Ok tt, session_twice)
  /\ exists batch,
    read_csv world_march url_2018 ≫= (fun p => index_batch (mk_frame p.1 p.2)) = Ok batch
    /\ stdmet (self session_twice) = stdmet (self session_once) ++ batch
    /\ length (stdmet (self session_twice))
       = (length (stdmet (self session_once)) + length batch)%nat
    /\ (NoDup (keys (stdmet (self session_twice))) <->
        NoDup (keys (stdmet (self session_once))) /\ NoDup (keys batch)
        /\ forall k, k ∈ keys (stdmet (self session_once)) -> k ∉ keys batch).
Proof.
  split; [vm_compute; reflexivity|].
  apply (C1_merge_appends world_march url_2018 session_once session_twice).
  vm_compute; reflexivity.
Defined.

(** ** C2: the plain year column 'YY' *)

(** C2 at its failing inputs.  A rolling file headed 'YY MM DD hh mm ...':
    line 93 settles on '#YY' whatever the header holds, and line 96 raises
    KeyError; nothing is parsed and the table stays empty.  Without a units
    row the same file already stops at line 82, the first value being a
    number. *)
Theorem C2_plain_YY_is_rejected :
  index_batch (mk_frame payload_YY.1 payload_YY.2) = Raise KeyError
  /\ load_stdmet (world_serving payload_YY) url_Mar session_new
     = (Raise KeyError, {| self := self session_new; net := [Get url_Mar] |})
  /\ index_batch (mk_frame payload_YY_numeric.1 payload_YY_numeric.2) = Raise NotSubscriptable.
Proof. repeat split; vm_compute; reflexivity. Qed.

(** ** C3: two-digit years *)

(** C3 at its failing inputs.  A first year value of 96 passes the test of
    line 96, and the load then raises: adding 1900 to a column of strings is
    a TypeError, and a numeric year column makes the join of line 103 a
    TypeError; an archive file of the two-digit era, all numbers, stops at
    line 82.  No row resolves to 1996.  A four-digit year goes through
    unchanged. *)
Theorem C3_two_digit_year_never_resolves :
  index_batch (mk_frame payload_96.1 payload_96.2) = Raise TypeError
  /\ index_batch (mk_frame payload_96_mixed.1 payload_96_mixed.2) = Raise TypeError
  /\ index_batch (mk_frame payload_96_numeric.1 payload_96_numeric.2) = Raise NotSubscriptable
  /\ index_batch (mk_frame payload_2009.1 payload_2009.2)
     = Ok [({| year := 2009; month := 1; day := 1; hour := 0; minute := 50 |},
            [("WDIR", CStr "180"); ("WSPD", CStr "4.1")])].
Proof. repeat split; vm_compute; reflexivity. Qed.

(** ** C4: unavailable periods *)

(** C4 at its failing input.  On the session DataBuoy('46042') the request
    for the unpublished year 1800 raises AttributeError at line 148, before
    the probe: no advisory is returned.  Once [station_id] has been assigned
    by hand, the same request returns the advisory the claim describes. *)
Theorem C4_request_raises_before_probe :
  get_stdmet 13 world_march [1800] [] session_new = (Raise AttributeError, session_new)
  /\ get_stdmet 13 world_march [1800] [] session_assigned
     = (Ok (Some (Some ("Year 1800 not available." +:+ nl))),
        {| self := self session_assigned;
           net := [Head (STDMET_YEARURL "46042" "1800")] |}).
Proof. split; vm_compute; reflexivity. Qed.

(** ** C5: a header without a year column *)

(** C5.  When the header holds none of 'YY', 'YYYY' and '#YY', the load
    raises, and the object is what it was: the table gains no row. *)
Theorem C5_unrecognized_schema_raises w url header body s :
  read_csv w url = Ok (header, body) ->
  (forall y, y ∈ year_types -> y ∉ header) ->
  exists e, load_stdmet w url s
            = (Raise e, {| self := self s; net := net s ++ [Get url] |}).
Proof.
  intros Hread Hnone. rewrite load_stdmet_spec, Hread. simpl.
  destruct (index_batch_needs_hash_YY (mk_frame header body)) as [e ->]; [|by exists e].
  apply Hnone. unfold year_types. set_solver.
Qed.

Lemma C5_unrecognized_schema_raises_witness :
  read_csv (world_serving payload_no_year) url_Mar = Ok payload_no_year
  /\ (forall y, y ∈ year_types -> y ∉ payload_no_year.1)
  /\ exists e, load_stdmet (world_serving payload_no_year) url_Mar session_once
               = (Raise e, {| self := self session_once;
                              net := net session_once ++ [Get url_Mar] |}).
Proof.
  assert (forall y, y ∈ year_types -> y ∉ payload_no_year.1) as Hnone.
  { intros y Hy. unfold year_types in Hy. simpl.
    repeat (apply elem_of_cons in Hy as [-> | Hy];
            [apply (bool_decide_unpack _); vm_compute; exact I|]).
    by apply elem_of_nil in Hy. }
  split; [reflexivity|]. split; [exact Hnone|].
  exact (C5_unrecognized_schema_raises (world_serving payload_no_year) url_Mar
           payload_no_year.1 payload_no_year.2 session_once eq_refl Hnone).
Defined.

(** ** C6: the availability probe *)

(** C6 as stated does not hold: when the transport fails, the probe does
    not answer "not available"; the exception leaves the probe and, with it,
    the acquisition call. *)
Lemma C6_transport_failure_is_raised :
  (__checkurl__ world_down url_2018 session_assigned).1 = Raise TransportError
  /\ (__checkurl__ world_down url_2018 session_assigned).1 <> Ok false
  /\ (get_stdmet 13 world_down [2018] [] session_assigned).1 = Raise TransportError.
Proof.
  split; [vm_compute; reflexivity|]. split; [|vm_compute; reflexivity].
  vm_compute. discriminate.
Qed.

(** C6, amended.  The probe issues one HEAD request and nothing else, and
    does not touch the object.  When the request is answered, the probe
    returns whether the status is 200, so that every other status reads as
    "not available" without an error; when the transport fails, the probe
    raises what the transport raised.  Nothing catches it in [get_stdmet]:
    whatever periods are requested, a probe of the call whose transport
    fails is the last request of the call, and the call raises what the
    transport raised. *)
Theorem C6_probe_status_and_transport_failure w :
  (forall url s,
     __checkurl__ w url s =
     (match head_status w url with
      | Ok status_code => Ok (status_code =? 200)
      | Raise e => Raise e
      end,
      {| self := self s; net := net s ++ [Head url] |}))
  /\ (forall fuel years months s,
        exists l,
          net (get_stdmet fuel w years months s).2 = net s ++ l
          /\ forall url e,
               Head url ∈ l -> head_status w url = Raise e ->
               (get_stdmet fuel w years months s).1 = Raise e
               /\ last l = Some (Head url)).
Proof.
  split.
  - intros url s. unfold __checkurl__, mbind, M_bind, emit, lift. simpl.
    by destruct (head_status w url).
  - intros fuel years months s.
    destruct (get_stdmet fuel w years months s) as [r s'] eqn:H.
    by apply get_stdmet_failure in H.
Qed.

Lemma C6_probe_status_and_transport_failure_witness :
  __checkurl__ world_march url_Mar session_assigned
  = (Ok false, {| self := self session_assigned; net := [Head url_Mar] |})
  /\ head_status world_down url_Mar = Raise TransportError
  /\ get_stdmet 13 world_down [] [2; 3] session_assigned
     = (Raise TransportError, {| self := self session_assigned; net := [Head url_Feb] |}).
Proof.
  split; [|split; [reflexivity|]].
  - rewrite (proj1 (C6_probe_status_and_transport_failure world_march)).
    vm_compute. reflexivity.
  - destruct (proj2 (C6_probe_status_and_transport_failure world_down)
                13%nat [] [2; 3] session_assigned) as (l & Hl & Hfail).
    change (net session_assigned ++ l) with l in Hl.
    destruct (Hfail url_Feb TransportError) as [Hr _]; [|reflexivity|].
    + rewrite <- Hl. apply list_elem_of_singleton. vm_compute. reflexivity.
    + destruct (get_stdmet 13 world_down [] [2; 3] session_assigned) as [r s'] eqn:E.
      simpl in Hr. rewrite Hr. f_equal.
      apply (f_equal snd) in E. simpl in E. rewrite <- E. vm_compute. reflexivity.
Defined.

(** ** C7: the units row *)

(** C7 as stated does not hold: a file with a units row and two
    observations, the second dated the 30th of February.  The units row is
    dropped on line 84, line 103 raises on the second observation, and the
    table holds no row of the payload, the well-formed first observation
    included. *)
Lemma C7_units_row_without_rows :
  read_csv (world_serving payload_feb30) url_Feb = Ok payload_feb30
  /\ cell_at (hd [] payload_feb30.2) 0 = CStr (String "#" "yr")
  /\ length (tl payload_feb30.2) = 2%nat
  /\ load_stdmet (world_serving payload_feb30) url_Feb session_new
     = (Raise ValueError, {| self := self session_new; net := [Get url_Feb] |})
  /\ stdmet (self session_new) = [].
Proof. repeat split; vm_compute; reflexivity. Qed.

(** C7, amended.  For a payload whose rows have no more fields than its
    header and whose first row's first value begins with '#': when the load
    goes through, line 108 appends to the table the frame lines 82-106 have
    built, which holds one row for each row after the first, in order, and
    none for the first; such a row holds, under the names of the header that
    are not date columns and in the order of the header, the values the data
    row has at these positions. *)
Theorem C7_units_row_removed_rows_kept w url header r0 body t s s' :
  read_csv w url = Ok (header, r0 :: body) ->
  Forall (fun r => (length r <= length header)%nat) (r0 :: body) ->
  cell_at r0 0 = CStr (String "#" t) ->
  load_stdmet w url s = (Ok tt, s') ->
  let date_cols :=
    ["#YY"; "MM"; "DD"; "hh"] ++ (if bool_decide ("mm" ∈ header) then ["mm"] else []) in
  exists batch,
    index_batch (mk_frame header (r0 :: body)) = Ok batch
    /\ stdmet (self s') = stdmet (self s) ++ batch
    /\ length batch = length body
    /\ length (stdmet (self s')) = (length (stdmet (self s)) + length body)%nat
    /\ Forall2 (fun r row =>
                  row.2.*1 = filter (fun c => c ∉ date_cols) header
                  /\ forall i c, header !! i = Some c -> c ∉ date_cols ->
                       (c, cell_at r i) ∈ row.2)
               body batch.
Proof.
  intros Hread _ Hmark H date_cols. rewrite load_stdmet_spec, Hread in H. simpl in H.
  destruct (index_batch _) as [batch|] eqn:Hb; [|done].
  injection H as <-. simpl. exists batch. split; [done|]. split; [done|].
  rewrite index_batch_unfold in Hb.
  destruct header as [|h header].
  { destruct (drop_units_empty_header (r0 :: body)) as [E|E]; by rewrite E in Hb. }
  rewrite (drop_units_marked _ _ _ t) in Hb by done. simpl in Hb.
  apply index_rest_Ok in Hb as (dt_vals & Hlen & ->).
  assert (length dt_vals = length body) as Hl.
  { rewrite Hlen, <- (length_fmap snd). by rewrite rows_after_units. }
  rewrite rows_after_units.
  change (columns (df_drop (mk_frame (h :: header) (r0 :: body)) 0)) with (h :: header).
  change (dt_columns (df_drop (mk_frame (h :: header) (r0 :: body)) 0))
    with (dt_columns (mk_frame (h :: header) body)).
  rewrite dt_columns_mk_frame. fold date_cols.
  assert (length (zip dt_vals (row_values (h :: header) date_cols <$> body)) = length body)
    as Hz by (rewrite length_zip, length_fmap; lia).
  split; [done|]. split; [rewrite length_app; lia|].
  apply Forall2_zip_fmap; [done|].
  intros r k. simpl. split; [apply row_values_names|].
  intros i c Hi Hc. by apply row_values_elem.
Qed.

Lemma C7_units_row_removed_rows_kept_witness :
  read_csv world_march url_2018 = Ok (payload_2018.1, hd [] payload_2018.2 :: tl payload_2018.2)
  /\ Forall (fun r => (length r <= length payload_2018.1)%nat)
            (hd [] payload_2018.2 :: tl payload_2018.2)
  /\ cell_at (hd [] payload_2018.2) 0 = CStr (String "#" "yr")
  /\ load_stdmet world_march url_2018 session_new = (Ok tt, session_once)
  /\ stdmet (self session_once) = batch_2018
  /\ exists batch,
       index_batch (mk_frame payload_2018.1 (hd [] payload_2018.2 :: tl payload_2018.2))
       = Ok batch
       /\ stdmet (self session_once) = stdmet (self session_new) ++ batch
       /\ length batch = length (tl payload_2018.2)
       /\ length (stdmet (self session_once))
          = (length (stdmet (self session_new)) + length (tl payload_2018.2))%nat
       /\ Forall2 (fun r row =>
                     row.2.*1 = filter (fun c => c ∉ ["#YY"; "MM"; "DD"; "hh"; "mm"])
                                       payload_2018.1
                     /\ forall i c, payload_2018.1 !! i = Some c ->
                          c ∉ ["#YY"; "MM"; "DD"; "hh"; "mm"] ->
                          (c, cell_at r i) ∈ row.2)
                  (tl payload_2018.2) batch.
Proof.
  assert (Forall (fun r => (length r <= length payload_2018.1)%nat)
                 (hd [] payload_2018.2 :: tl payload_2018.2)) as Hrows
    by (repeat constructor).
  split; [reflexivity|]. split; [exact Hrows|]. split; [reflexivity|].
  split; [vm_compute; reflexivity|]. split; [vm_compute; reflexivity|].
  apply (C7_units_row_removed_rows_kept world_march url_2018 payload_2018.1
           (hd [] payload_2018.2) (tl payload_2018.2) "yr" session_new session_once);
    [reflexivity | exact Hrows | reflexivity | vm_compute; reflexivity].
Defined.

(** ** C8: the default period *)

(** C8 at its failing input: a call without years and months on the 5th of
    January, the January file not yet published and the December file
    available.  On the session DataBuoy('46042') the call raises
    AttributeError at line 137 before any probe.  With [station_id]
    assigned by hand it probes January once, goes on with month_num = 0 and
    raises ValueError at line 135: December is never probed and no month is
    loaded. *)
Theorem C8_january_walk_stops_at_month_0 :
  get_stdmet 13 world_january [] [] session_new = (Raise AttributeError, session_new)
  /\ get_stdmet 13 world_january [] [] session_assigned
     = (Raise ValueError, {| self := self session_assigned; net := [Head url_Jan] |})
  /\ available world_january url_Dec = true.
Proof. repeat split; vm_compute; reflexivity. Qed.

(** ** C9: the station code and the addresses *)

(** C9 at its failing input.  DataBuoy('46042') stores the code under
    [_station_id]; [get_stdmet] reads [station_id].  Whatever is requested,
    the call raises AttributeError and builds no address, while [__str__]
    reads the attribute the constructor assigned. *)
Theorem C9_station_code_is_not_read :
  get_stdmet 13 world_march [2018] [] session_new = (Raise AttributeError, session_new)
  /\ get_stdmet 13 world_march [] [2] session_new = (Raise AttributeError, session_new)
  /\ get_stdmet 13 world_march [] [] session_new = (Raise AttributeError, session_new)
  /\ __str__ session_new = (Ok "NDBC.DataBuoy Object for Station 46042", session_new).
Proof. repeat split; vm_compute; reflexivity. Qed.

(** ** C10: a failed load *)

(** C10.  When lines 79-106 raise on the payload, [load_stdmet] raises the
    same exception and the object, its table included, is what it was
    before the call: the table is assigned on line 108 only. *)
Theorem C10_failed_load_leaves_table w url p e s :
  read_csv w url = Ok p ->
  index_batch (mk_frame p.1 p.2) = Raise e ->
  load_stdmet w url s = (Raise e, {| self := self s; net := net s ++ [Get url] |}).
Proof. intros Hread Hb. by rewrite load_stdmet_spec, Hread; simpl; rewrite Hb. Qed.

Lemma C10_failed_load_leaves_table_witness :
  read_csv (world_serving payload_feb30) url_Feb = Ok payload_feb30
  /\ index_batch (mk_frame payload_feb30.1 payload_feb30.2) = Raise ValueError
  /\ load_stdmet (world_serving payload_feb30) url_Feb session_once
     = (Raise ValueError,
        {| self := self session_once; net := net session_once ++ [Get url_Feb] |}).
Proof.
  split; [reflexivity|]. split; [vm_compute; reflexivity|].
  apply (C10_failed_load_leaves_table (world_serving payload_feb30) url_Feb
           payload_feb30 ValueError session_once); [reflexivity | vm_compute; reflexivity].
Defined.

(** * Further properties of the class *)

(** ** The constructor and __str__ *)

(** X1.  [__str__] on a session built by the constructor returns the
    description with the station code when a non-empty code was given, and
    raises AttributeError when the code was left out or is the empty string;
    it changes nothing. *)
Theorem X1_str_after_init station_id_arg log :
  __str__ {| self := __init__ station_id_arg; net := log |} =
  (match station_id_arg with
   | Some (String a code) => Ok ("NDBC.DataBuoy Object for Station " +:+ String a code)
   | Some EmptyString | None => Raise AttributeError
   end,
   {| self := __init__ station_id_arg; net := log |}).
Proof. by destruct station_id_arg as [[|a code]|]. Qed.

(** ** What every call keeps *)

(** X2.  Neither [load_stdmet] nor [get_stdmet] assigns [_station_id] or
    [station_id]: after a call, returned or raised, both are what they
    were. *)
Theorem X2_station_attributes_are_kept fuel w years months url s :
  same_station s (get_stdmet fuel w years months s).2
  /\ same_station s (load_stdmet w url s).2.
Proof.
  split.
  - destruct (get_stdmet fuel w years months s) as [r s'] eqn:H.
    by eapply get_stdmet_same_station.
  - destruct (load_stdmet w url s) as [r s'] eqn:H.
    by apply load_stdmet_attrs in H.
Qed.

(** X3.  The table loses no row: after a call of [get_stdmet], returned
    or raised, the timestamps the table was keyed by come first among its
    keys, in the order they had, and it has at least as many rows. *)
Theorem X3_rows_are_never_removed fuel w years months s :
  keys (stdmet (self s)) `prefix_of` keys (stdmet (self (get_stdmet fuel w years months s).2))
  /\ (length (stdmet (self s))
      <= length (stdmet (self (get_stdmet fuel w years months s).2)))%nat.
Proof.
  destruct (get_stdmet fuel w years months s) as [r s'] eqn:H.
  apply get_stdmet_table_grows in H as [k Hk]. simpl. rewrite Hk. split.
  - exists (keys k). unfold keys. by rewrite fmap_app.
  - rewrite length_app. lia.
Qed.

(** X4.  [get_stdmet] downloads an address only directly after a probe of
    that address has answered 200: the requests a call adds to the log are
    HEAD requests, some of them followed by the GET of the same address. *)
Theorem X4_download_follows_successful_probe fuel w years months s :
  exists l, net (get_stdmet fuel w years months s).2 = net s ++ l /\ probe_log w l.
Proof. apply get_stdmet_probed. Qed.

(** X11.  Every key a load adds is a date and a time of day that exist: if
    the keys of the table were valid before a call of [get_stdmet], they are
    valid after it. *)
Theorem X11_keys_stay_valid fuel w years months s :
  valid_keys s -> valid_keys (get_stdmet fuel w years months s).2.
Proof.
  destruct (get_stdmet fuel w years months s) as [r s'] eqn:H.
  eapply (keeps_get_stdmet keys_stay_valid); [|apply load_stdmet_valid_keys|exact H].
  intros url s0 r0 s0' [= <- <-] Hv. exact Hv.
Qed.

Lemma X11_keys_stay_valid_witness :
  valid_keys session_assigned
  /\ valid_keys (get_stdmet 13 world_march [2018; 1800] [2; 3] session_assigned).2.
Proof.
  assert (valid_keys session_assigned) as Hv by (vm_compute; constructor).
  split; [exact Hv|].
  exact (X11_keys_stay_valid 13 world_march [2018; 1800] [2; 3] session_assigned Hv).
Defined.

(** ** The default period *)

(** X5.  Called without years and months, [get_stdmet] comes to an end
    whatever the current month is: fuel beyond the number of the current
    month is never used up.  The while loop runs at most once for each month
    number from the current one down, so the call issues at most as many
    HEAD requests as the number of the current month; after them it requests
    nothing, or downloads once, the address it probed last. *)
Theorem X5_default_search_is_bounded w more s :
  (get_stdmet (enough_fuel w more) w [] [] s).1 <> Ok None
  /\ exists urls rest,
       net (get_stdmet (enough_fuel w more) w [] [] s).2 = net s ++ (Head <$> urls) ++ rest
       /\ (length urls <= Z.to_nat (today_month w))%nat
       /\ (rest = [] \/ exists url, rest = [Get url] /\ last urls = Some url).
Proof.
  assert (Z.to_nat (today_month w + 1) <= enough_fuel w more)%nat as Hfuel
    by (unfold enough_fuel; lia).
  split; [by apply get_stdmet_terminates|].
  destruct (get_stdmet (enough_fuel w more) w [] [] s) as [r s'] eqn:H.
  by eapply get_stdmet_default_requests.
Qed.

(** X8.  When a call without years and months returns, it has loaded the
    latest month of the current year, not after the current month, whose
    address answered 200: every later month up to the current one was probed
    and was not available, the table has gained the rows of that month's
    file, and the value returned holds one entry for each of the later
    months, or is None when there is none. *)
Theorem X8_default_call_loads_latest_available_month fuel w s r s' :
  get_stdmet fuel w [] [] s = (Ok (Some r), s') ->
  exists station k month_abbrv,
    station_id (self s) = Some station
    /\ 1 <= k <= today_month w
    /\ month_abbr (today_year w) k = Ok month_abbrv
    /\ available w (STDMET_MONTHURL month_abbrv station) = true
    /\ (forall j, k < j <= today_month w ->
          exists a, month_abbr (today_year w) j = Ok a
                    /\ available w (STDMET_MONTHURL a station) = false)
    /\ stdmet (self s') = stdmet (self s) ++ fetched w (STDMET_MONTHURL month_abbrv station)
    /\ r = returned (concat_notes (walk_note w <$> months_down (today_month w) (k + 1))).
Proof. apply get_stdmet_default_inv. Qed.

Lemma X8_default_call_loads_latest_available_month_witness :
  get_stdmet 13 world_march [] [] session_assigned
  = (Ok (Some (Some ("Mar not available." +:+ nl +:+ " "))), session_after_default)
  /\ exists station k month_abbrv,
    station_id (self session_assigned) = Some station
    /\ 1 <= k <= today_month world_march
    /\ month_abbr (today_year world_march) k = Ok month_abbrv
    /\ available world_march (STDMET_MONTHURL month_abbrv station) = true
    /\ (forall j, k < j <= today_month world_march ->
          exists a, month_abbr (today_year world_march) j = Ok a
                    /\ available world_march (STDMET_MONTHURL a station) = false)
    /\ stdmet (self session_after_default)
       = stdmet (self session_assigned)
         ++ fetched world_march (STDMET_MONTHURL month_abbrv station)
    /\ Some ("Mar not available." +:+ nl +:+ " ")
       = returned (concat_notes
                     (walk_note world_march <$> months_down (today_month world_march) (k + 1))).
Proof.
  split; [vm_compute; reflexivity|].
  apply (X8_default_call_loads_latest_available_month 13 world_march session_assigned
           (Some ("Mar not available." +:+ nl +:+ " ")) session_after_default).
  vm_compute; reflexivity.
Defined.

(** ** Explicit periods *)

(** X6.  When a call for years or months returns, the value returned holds,
    in request order (the years, then the months), one entry for each
    requested period whose probe did not answer 200; it is None exactly when
    every requested period was available. *)
Theorem X6_explicit_call_returns_the_advisory fuel w years months s r s' :
  years <> [] \/ months <> [] ->
  get_stdmet fuel w years months s = (Ok r, s') ->
  exists station,
    station_id (self s) = Some station
    /\ r = Some (returned (advisory w station years months))
    /\ (r = Some None <->
        Forall (fun y => available w (STDMET_YEARURL station (str_of_Z y)) = true) years
        /\ Forall (fun m => exists a, month_abbr (today_year w) m = Ok a
                                      /\ available w (STDMET_MONTHURL a station) = true)
                  months).
Proof.
  intros Hne H.
  apply get_stdmet_explicit_inv in H as (station & Hs & -> & _ & Hok); [|done].
  exists station. split; [done|]. split; [done|].
  assert (Some (returned (advisory w station years months)) = Some None
          <-> advisory w station years months = "") as ->.
  { rewrite <- returned_None. split; [by intros [= ->] | by intros ->]. }
  unfold advisory. rewrite concat_notes_empty, Forall_app, !Forall_fmap, !Forall_forall.
  split; intros [Hy Hm]; split.
  - intros y Hin. apply year_note_empty, Hy, Hin.
  - intros m Hin. destruct (proj1 (Forall_forall _ _) Hok m Hin) as [a Ha].
    exists a. split; [done|]. apply (month_note_empty w station m a Ha), Hm, Hin.
  - intros y Hin. apply year_note_empty, Hy, Hin.
  - intros m Hin. destruct (Hm m Hin) as (a & Ha & Hav).
    by apply (month_note_empty w station m a Ha).
Qed.

Lemma X6_explicit_call_returns_the_advisory_witness :
  ([2018; 1800] <> [] \/ [2; 3] <> [])
  /\ get_stdmet 13 world_march [2018; 1800] [2; 3] session_assigned
     = (Ok (Some (Some ("Year 1800 not available." +:+ nl +:+ "Mar not available." +:+ nl))),
        session_after_request)
  /\ exists station,
    station_id (self session_assigned) = Some station
    /\ Some (Some ("Year 1800 not available." +:+ nl +:+ "Mar not available." +:+ nl))
       = Some (returned (advisory world_march station [2018; 1800] [2; 3]))
    /\ (Some (Some ("Year 1800 not available." +:+ nl +:+ "Mar not available." +:+ nl))
        = Some None <->
        Forall (fun y => available world_march (STDMET_YEARURL station (str_of_Z y)) = true)
               [2018; 1800]
        /\ Forall (fun m => exists a, month_abbr (today_year world_march) m = Ok a
                              /\ available world_march (STDMET_MONTHURL a station) = true)
                  [2; 3]).
Proof.
  assert ([2018; 1800] <> [] \/ [2; 3] <> []) as Hne by (by left).
  split; [exact Hne|]. split; [vm_compute; reflexivity|].
  apply (X6_explicit_call_returns_the_advisory 13 world_march [2018; 1800] [2; 3]
           session_assigned _ session_after_request Hne).
  vm_compute; reflexivity.
Defined.

(** X7.  When a call for years or months returns, the table is what it was
    followed by the rows of the file of each available period, in request
    order: the years first, then the months. *)
Theorem X7_explicit_call_appends_each_available_period fuel w years months s r s' :
  years <> [] \/ months <> [] ->
  get_stdmet fuel w years months s = (Ok r, s') ->
  exists station,
    station_id (self s) = Some station
    /\ stdmet (self s')
       = stdmet (self s) ++ concat (year_rows w station <$> years)
                         ++ concat (month_rows w station <$> months).
Proof.
  intros Hne H.
  apply get_stdmet_explicit_inv in H as (station & Hs & _ & Hrows & _); [|done].
  by exists station.
Qed.

Lemma X7_explicit_call_appends_each_available_period_witness :
  ([2018; 1800] <> [] \/ [2; 3] <> [])
  /\ get_stdmet 13 world_march [2018; 1800] [2; 3] session_assigned
     = (Ok (Some (Some ("Year 1800 not available." +:+ nl +:+ "Mar not available." +:+ nl))),
        session_after_request)
  /\ exists station,
    station_id (self session_assigned) = Some station
    /\ stdmet (self session_after_request)
       = stdmet (self session_assigned)
         ++ concat (year_rows world_march station <$> [2018; 1800])
         ++ concat (month_rows world_march station <$> [2; 3]).
Proof.
  assert ([2018; 1800] <> [] \/ [2; 3] <> []) as Hne by (by left).
  split; [exact Hne|]. split; [vm_compute; reflexivity|].
  apply (X7_explicit_call_appends_each_available_period 13 world_march [2018; 1800] [2; 3]
           session_assigned
           (Some (Some ("Year 1800 not available." +:+ nl +:+ "Mar not available." +:+ nl)))
           session_after_request Hne).
  vm_compute; reflexivity.
Defined.

(** ** What a load needs *)

(** X9.  A load that goes through has read a payload whose header holds
    the four columns '#YY', 'MM', 'DD' and 'hh'. *)
Theorem X9_loaded_payload_has_the_date_columns w url s s' :
  load_stdmet w url s = (Ok tt, s') ->
  exists header body,
    read_csv w url = Ok (header, body)
    /\ "#YY" ∈ header /\ "MM" ∈ header /\ "DD" ∈ header /\ "hh" ∈ header.
Proof.
  rewrite load_stdmet_spec.
  destruct (read_csv w url) as [[header body]|]; simpl; [|done].
  destruct (index_batch _) as [batch|] eqn:Hb; [|done]. intros _.
  exists header, body. split; [done|].
  rewrite index_batch_unfold in Hb.
  destruct (drop_units _) as [df1|] eqn:Hd; [|done]. simpl in Hb.
  apply drop_units_columns in Hd. simpl in Hd. rewrite <- Hd.
  by apply index_rest_columns in Hb.
Qed.

Lemma X9_loaded_payload_has_the_date_columns_witness :
  load_stdmet world_march url_2018 session_new = (Ok tt, session_once)
  /\ exists header body,
    read_csv world_march url_2018 = Ok (header, body)
    /\ "#YY" ∈ header /\ "MM" ∈ header /\ "DD" ∈ header /\ "hh" ∈ header.
Proof.
  split; [vm_compute; reflexivity|].
  apply (X9_loaded_payload_has_the_date_columns world_march url_2018 session_new session_once).
  vm_compute; reflexivity.
Defined.

(** X10.  A payload with fewer than two rows under its header is never
    loaded: line 82 needs the row labelled 0 and line 96 the row labelled
    1.  The load raises and the object is what it was. *)
Theorem X10_short_payload_is_not_loaded w url header body s :
  read_csv w url = Ok (header, body) ->
  (length body < 2)%nat ->
  exists e, load_stdmet w url s
            = (Raise e, {| self := self s; net := net s ++ [Get url] |}).
Proof.
  intros Hread Hlen. rewrite load_stdmet_spec, Hread. simpl.
  destruct (index_batch _) as [batch|e] eqn:Hb; [|by exists e].
  apply index_batch_two_rows in Hb. lia.
Qed.

Lemma X10_short_payload_is_not_loaded_witness :
  read_csv (world_serving payload_units_only) url_Mar
  = Ok (payload_units_only.1, payload_units_only.2)
  /\ (length payload_units_only.2 < 2)%nat
  /\ exists e, load_stdmet (world_serving payload_units_only) url_Mar session_once
               = (Raise e, {| self := self session_once;
                              net := net session_once ++ [Get url_Mar] |}).
Proof.
  assert (length payload_units_only.2 < 2)%nat as Hlen by (vm_compute; lia).
  split; [reflexivity|]. split; [exact Hlen|].
  exact (X10_short_payload_is_not_loaded (world_serving payload_units_only) url_Mar
           payload_units_only.1 payload_units_only.2 session_once eq_refl Hlen).
Defined.

(** X12.  When the header has no 'mm' column, every row a load adds is
    keyed by a full hour: the minute of its timestamp is 0. *)
Theorem X12_no_minute_column_gives_full_hours w url header body s s' :
  read_csv w url = Ok (header, body) ->
  "mm" ∉ header ->
  load_stdmet w url s = (Ok tt, s') ->
  exists batch,
    stdmet (self s') = stdmet (self s) ++ batch
    /\ Forall (fun d => minute d = 0) (keys batch).
Proof.
  intros Hread Hmm. rewrite load_stdmet_spec, Hread. simpl.
  destruct (index_batch _) as [batch|] eqn:Hb; [|done]. intros [= <-].
  exists batch. split; [done|].
  rewrite index_batch_unfold in Hb.
  destruct (drop_units _) as [df1|] eqn:Hd; [|done]. simpl in Hb.
  apply drop_units_columns in Hd. simpl in Hd.
  apply index_rest_hourly in Hb; [done | by rewrite Hd].
Qed.

Lemma X12_no_minute_column_gives_full_hours_witness :
  read_csv (world_serving payload_hourly) url_Mar = Ok (payload_hourly.1, payload_hourly.2)
  /\ ("mm" ∉ payload_hourly.1)
  /\ load_stdmet (world_serving payload_hourly) url_Mar session_new
     = (Ok tt, (load_stdmet (world_serving payload_hourly) url_Mar session_new).2)
  /\ exists batch,
    stdmet (self (load_stdmet (world_serving payload_hourly) url_Mar session_new).2)
    = stdmet (self session_new) ++ batch
    /\ Forall (fun d => minute d = 0) (keys batch).
Proof.
  assert ("mm" ∉ payload_hourly.1) as Hmm
    by (apply (bool_decide_unpack _); vm_compute; exact I).
  split; [reflexivity|]. split; [exact Hmm|]. split; [vm_compute; reflexivity|].
  apply (X12_no_minute_column_gives_full_hours (world_serving payload_hourly) url_Mar
           payload_hourly.1 payload_hourly.2 session_new _ eq_refl Hmm).
  vm_compute; reflexivity.
Defined.

(** X14.  A frame whose year value in the row labelled 1, once the units
    row is dropped, lies between 10 and 99 is never indexed: the branch of
    line 97 is taken and a later line raises. *)
Theorem X14_two_digit_year_is_never_indexed df df1 col v n :
  drop_units df = Ok df1 ->
  df_col df1 "#YY" = Ok col ->
  series_at col 1 = Ok v ->
  py_int v = Ok n ->
  10 <= n <= 99 ->
  exists e, index_batch df = Raise e.
Proof.
  intros Hd Hcol Hv Hn Hrange. rewrite index_batch_unfold, Hd. simpl.
  apply (two_digit_never_loads df1 col v n Hcol Hv Hn).
  rewrite two_digit_year_spec.
  destruct (Z.leb_spec n 0); [lia|].
  destruct (Z.leb_spec 10 n); [|lia]. destruct (Z.leb_spec n 99); [done | lia].
Qed.

Lemma X14_two_digit_year_is_never_indexed_witness :
  drop_units (mk_frame payload_96.1 payload_96.2)
  = Ok (df_drop (mk_frame payload_96.1 payload_96.2) 0)
  /\ df_col (df_drop (mk_frame payload_96.1 payload_96.2) 0) "#YY" = Ok [(1, CStr "96")]
  /\ series_at [(1, CStr "96")] 1 = Ok (CStr "96")
  /\ py_int (CStr "96") = Ok 96
  /\ 10 <= 96 <= 99
  /\ exists e, index_batch (mk_frame payload_96.1 payload_96.2) = Raise e.
Proof.
  assert (10 <= 96 <= 99) as Hrange by lia.
  split; [reflexivity|]. split; [reflexivity|]. split; [reflexivity|].
  split; [reflexivity|]. split; [exact Hrange|].
  exact (X14_two_digit_year_is_never_indexed (mk_frame payload_96.1 payload_96.2)
           (df_drop (mk_frame payload_96.1 payload_96.2) 0) [(1, CStr "96")] (CStr "96") 96
           eq_refl eq_refl eq_refl eq_refl Hrange).
Defined.

(** ** Addresses and requests *)

(** X13.  For one station, the archive addresses of two different years
    differ. *)
Theorem X13_different_years_have_different_addresses station y1 y2 :
  y1 <> y2 ->
  STDMET_YEARURL station (str_of_Z y1) <> STDMET_YEARURL station (str_of_Z y2).
Proof.
  intros Hne E. apply Hne. unfold STDMET_YEARURL in E.
  apply (inj (String.append _)) in E. apply (inj (String.append _)) in E.
  apply (inj (String.append _)) in E. apply string_app_inj_r in E.
  by apply str_of_Z_inj.
Qed.

Lemma X13_different_years_have_different_addresses_witness :
  2018 <> 2009
  /\ STDMET_YEARURL "46042" (str_of_Z 2018) <> STDMET_YEARURL "46042" (str_of_Z 2009).
Proof.
  assert (2018 <> 2009) as Hne by lia.
  split; [exact Hne|].
  exact (X13_different_years_have_different_addresses "46042" 2018 2009 Hne).
Defined.

(** X15.  A request for months only whose first month is not a number
    from 1 to 12 raises at line 155, before anything is probed, and the
    session is what it was: ValueError when the year and the month are in
    the range of a C int, OverflowError when one of them is not. *)
Theorem X15_month_out_of_range_raises fuel w m months s :
  ~ 1 <= m <= 12 ->
  get_stdmet fuel w [] (m :: months) s
  = (Raise (if fits_c_int (today_year w) && fits_c_int m
            then ValueError else OverflowError), s).
Proof.
  intros Hm. rewrite get_stdmet_explicit by (by right).
  simpl years_loop. unfold mret, M_ret.
  by rewrite months_loop_step, (month_abbr_out_of_range _ _ Hm).
Qed.

Lemma X15_month_out_of_range_raises_witness :
  ~ 1 <= 13 <= 12
  /\ get_stdmet 13 world_march [] [13; 2] session_assigned
     = (Raise ValueError, session_assigned)
  /\ get_stdmet 13 world_march [] [2 ^ 31; 2] session_assigned
     = (Raise OverflowError, session_assigned).
Proof.
  assert (~ 1 <= 13 <= 12) as Hm by lia.
  assert (~ 1 <= 2 ^ 31 <= 12) as Hm' by lia.
  split; [exact Hm|]. split.
  - exact (X15_month_out_of_range_raises 13 world_march 13 [2] session_assigned Hm).
  - exact (X15_month_out_of_range_raises 13 world_march (2 ^ 31) [2] session_assigned Hm').
Defined.

(** X16.  On a session the constructor has built and nothing else has
    touched, on a date that exists and for months from 1 to 12, every call
    of [get_stdmet] raises AttributeError where it reads [station_id]: no
    request is issued and the session is what it was. *)
Theorem X16_fresh_session_raises_AttributeError fuel w years months station_id_arg log :
  (exists a, month_abbr (today_year w) (today_month w) = Ok a) ->
  Forall (fun m => 1 <= m <= 12) months ->
  get_stdmet (S fuel) w years months {| self := __init__ station_id_arg; net := log |}
  = (Raise AttributeError, {| self := __init__ station_id_arg; net := log |}).
Proof.
  intros [a Hclock] Hmonths.
  destruct years as [|y years].
  - destruct months as [|m months].
    + rewrite get_stdmet_default, default_walk_step.
      pose proof (month_abbr_Ok _ _ _ Hclock).
      destruct (Z.geb_spec (today_month w) 0); [|lia]. simpl.
      by rewrite Hclock.
    + rewrite get_stdmet_explicit by (by right).
      simpl years_loop. unfold mret, M_ret. rewrite months_loop_step.
      apply Forall_cons in Hmonths as [Hm _].
      destruct (month_abbr_Some (today_year w) m) as [a' Ha'];
        [by eapply month_abbr_Ok_year | done |].
      by rewrite Ha'.
  - rewrite get_stdmet_explicit by (by left).
    by rewrite years_loop_step.
Qed.

Lemma X16_fresh_session_raises_AttributeError_witness :
  (exists a, month_abbr (today_year world_march) (today_month world_march) = Ok a)
  /\ Forall (fun m => 1 <= m <= 12) [2; 3]
  /\ get_stdmet 13 world_march [2018] [2; 3] {| self := __init__ (Some "46042"); net := [] |}
     = (Raise AttributeError, {| self := __init__ (Some "46042"); net := [] |}).
Proof.
  assert (exists a, month_abbr (today_year world_march) (today_month world_march) = Ok a)
    as Hclock by (exists "Mar"; reflexivity).
  assert (Forall (fun m => 1 <= m <= 12) [2; 3]) as Hmonths
    by (repeat constructor; lia).
  split; [exact Hclock|]. split; [exact Hmonths|].
  exact (X16_fresh_session_raises_AttributeError 12 world_march [2018] [2; 3]
           (Some "46042") [] Hclock Hmonths).
Defined.

(** X17.  When a call for years or months returns, it has issued, in
    request order, one HEAD request for each requested period, followed by
    the GET of the same address when the answer was 200, and no other
    request. *)
Theorem X17_one_probe_for_each_requested_period fuel w years months s r s' :
  years <> [] \/ months <> [] ->
  get_stdmet fuel w years months s = (Ok r, s') ->
  exists station,
    station_id (self s) = Some station
    /\ net s' = net s ++ concat (year_requests w station <$> years)
                      ++ concat (month_requests w station <$> months).
Proof.
  intros Hne H.
  destruct (get_stdmet_explicit_station _ _ _ _ _ _ _ Hne H) as [station Hs].
  exists station. split; [done|].
  rewrite get_stdmet_explicit in H by done.
  destruct (years_loop w years "" s) as [[tu|] s1] eqn:Hy; [|done].
  pose proof (years_loop_net _ _ _ _ _ _ _ Hs Hy) as Hn1.
  apply years_loop_Ok with (station := station) in Hy as [_ Hs1]; [|done].
  destruct (months_loop w months tu s1) as [[tu'|] s2] eqn:Hm; [|done].
  apply months_loop_net with (station := station) in Hm; [|done].
  injection H as _ <-. by rewrite Hm, Hn1, <- app_assoc.
Qed.

Lemma X17_one_probe_for_each_requested_period_witness :
  ([2018; 1800] <> [] \/ [2; 3] <> [])
  /\ get_stdmet 13 world_march [2018; 1800] [2; 3] session_assigned
     = (Ok (Some (Some ("Year 1800 not available." +:+ nl +:+ "Mar not available." +:+ nl))),
        session_after_request)
  /\ exists station,
    station_id (self session_assigned) = Some station
    /\ net session_after_request
       = net session_assigned
         ++ concat (year_requests world_march station <$> [2018; 1800])
         ++ concat (month_requests world_march station <$> [2; 3]).
Proof.
  assert ([2018; 1800] <> [] \/ [2; 3] <> []) as Hne by (by left).
  split; [exact Hne|]. split; [vm_compute; reflexivity|].
  apply (X17_one_probe_for_each_requested_period 13 world_march [2018; 1800] [2; 3]
           session_assigned
           (Some (Some ("Year 1800 not available." +:+ nl +:+ "Mar not available." +:+ nl)))
           session_after_request Hne).
  vm_compute; reflexivity.
Defined.

(** X18.  Called without years and months on a session whose [station_id]
    is readable, when no month from the current one back to January answers
    200, [get_stdmet] probes each of these months once, from the current one
    down, and then raises ValueError at line 135, for the month number 0:
    nothing is downloaded and the object is what it was. *)
Theorem X18_walk_without_available_month_raises w more s station :
  station_id (self s) = Some station ->
  1 <= today_year w <= 9999 ->
  1 <= today_month w <= 12 ->
  (forall j, 1 <= j <= today_month w ->
     exists c, head_status w (walk_url w station j) = Ok c /\ (c =? 200) = false) ->
  get_stdmet (enough_fuel w more) w [] [] s
  = (Raise ValueError,
     {| self := self s;
        net := net s ++ (Head <$> (walk_url w station <$> months_down (today_month w) 1)) |}).
Proof.
  intros Hs Hy Hm Hno. rewrite get_stdmet_default.
  rewrite (default_walk_exhausted _ _ _ _ _ _ station); try done; try lia.
  unfold enough_fuel. lia.
Qed.

Lemma X18_walk_without_available_month_raises_witness :
  station_id (self session_assigned) = Some "46042"
  /\ 1 <= today_year world_january <= 9999
  /\ 1 <= today_month world_january <= 12
  /\ (forall j, 1 <= j <= today_month world_january ->
        exists c, head_status world_january (walk_url world_january "46042" j) = Ok c
                  /\ (c =? 200) = false)
  /\ get_stdmet (enough_fuel world_january 0) world_january [] [] session_assigned
     = (Raise ValueError,
        {| self := self session_assigned;
           net := net session_assigned
                  ++ (Head <$> (walk_url world_january "46042"
                                <$> months_down (today_month world_january) 1)) |}).
Proof.
  assert (1 <= today_year world_january <= 9999) as Hy by (simpl; lia).
  assert (1 <= today_month world_january <= 12) as Hm by (simpl; lia).
  assert (forall j, 1 <= j <= today_month world_january ->
            exists c, head_status world_january (walk_url world_january "46042" j) = Ok c
                      /\ (c =? 200) = false) as Hno.
  { intros j Hj. simpl in Hj. assert (j = 1) as -> by lia. exists 404. by vm_compute. }
  split; [reflexivity|]. split; [exact Hy|]. split; [exact Hm|]. split; [exact Hno|].
  exact (X18_walk_without_available_month_raises world_january 0 session_assigned "46042"
           eq_refl Hy Hm Hno).
Defined.
